(** * Weather MCP Server: resilient geocoding, session registry, tool boundary

    A shallow embedding of the parts of the Weather MCP server that carry
    behaviour worth stating:

    - [Geocode]: [geocodeCity] of [src/sse-server.ts], the retry loop with
      exponential backoff around the geocoding request;
    - [Registry]: the [ConnectionRegistry] class of the SSE server with
      message routing;
    - [Tools]: the [CallToolRequestSchema] handler of [src/index.ts];
    - [GrowingDouble]: the growing-degree-day arithmetic of
      [fetchGrowingConditions], on IEEE 754 double-precision numbers;
    - [Growing]: the same arithmetic read over exact rationals, which
      the alert and history summaries share.

    Part I holds the definitions, Part II the properties. *)

From Stdlib Require Import ZArith QArith Qminmax String Ascii List Bool Lia.
From Stdlib Require Import DecimalString.
From Stdlib Require Import Floats Uint63.
From stdpp Require Import gmap strings list fin_maps.

Local Open Scope string_scope.
Local Open Scope list_scope.
Local Open Scope Z_scope.

(* ===================================================================== *)
(** * Part I. The embedding                                                *)
(* ===================================================================== *)

(** ** JavaScript values the code manipulates *)

Module JS.

(** What a [throw] (or a rejected promise) carries.  The code only ever
    asks two questions of it: [error instanceof Error], and then
    [error.name] / [error.message]; for anything else it takes
    [String(error)]. *)
Inductive Thrown : Type :=
| ErrorObject (name message : string)
| NonError (asString : string).

(** [new Error(msg)] *)
Definition new_Error (msg : string) : Thrown := ErrorObject "Error" msg.

(** [error instanceof Error ? error.message : String(error)] *)
Definition messageOf (error : Thrown) : string :=
  match error with
  | ErrorObject _ message => message
  | NonError s => s
  end.

(** Result of running a block: it completes normally or throws. *)
Inductive Completion (A : Type) : Type :=
| Normal (a : A)
| Throw (error : Thrown).
Arguments Normal {A} a.
Arguments Throw {A} error.

Definition bind {A B} (c : Completion A) (k : A -> Completion B) : Completion B :=
  match c with
  | Normal a => k a
  | Throw e => Throw e
  end.

(** [try { body } catch (error) { handler }] *)
Definition try_catch {A} (body : Completion A) (handler : Thrown -> Completion A)
  : Completion A :=
  match body with
  | Normal a => Normal a
  | Throw error => handler error
  end.

(** [pat] occurs in [s] at position 0. *)
Fixpoint startsWith (s pat : string) {struct pat} : bool :=
  match pat with
  | EmptyString => true
  | String a pat' =>
    match s with
    | EmptyString => false
    | String b s' => Ascii.eqb a b && startsWith s' pat'
    end
  end.

(** [String.prototype.includes]: [pat] occurs somewhere in [s]. *)
Fixpoint includes (s pat : string) : bool :=
  startsWith s pat
  || match s with
     | EmptyString => false
     | String _ rest => includes rest pat
     end.

(** The character [c] occurs in [s]. *)
Fixpoint occursIn (c : ascii) (s : string) : bool :=
  match s with
  | EmptyString => false
  | String x rest => Ascii.eqb c x || occursIn c rest
  end.

(** Template-literal rendering of an integer-valued number. *)
Definition showZ (z : Z) : string := NilZero.string_of_int (Z.to_int z).

(** The one-character string holding a double quote. *)
Definition dquote : string := String (ascii_of_nat 34) EmptyString.

(** Truthiness of a string: the empty string is falsy. *)
Definition truthy_string (s : string) : bool :=
  match s with EmptyString => false | _ => true end.

(** Truthiness of an optional string field ([undefined] is falsy). *)
Definition truthy_ostring (o : option string) : bool :=
  match o with Some s => truthy_string s | None => false end.

(** Truthiness of an optional numeric field ([undefined] and [0] are falsy). *)
Definition truthy_onumber (o : option Q) : bool :=
  match o with Some q => negb (Qeq_bool q 0) | None => false end.

End JS.

Notation "x <- c ;; k" := (JS.bind c (fun x => k))
  (at level 100, c at next level, right associativity, only parsing).

(** ** [geocodeCity] (src/sse-server.ts) *)

Module Geocode.
Import JS.

(** One entry of [data.results].  A field is [None] when the upstream
    object does not carry it. *)
Record GeoResult : Type := {
  r_latitude : option Q;
  r_longitude : option Q;
  r_name : option string;
  r_country_code : option string;
  r_country : option string;
  r_timezone : option string
}.

(** The parsed body, a JSON object; [results] is [None] when the member
    is missing (or falsy, which [!data.results] treats alike), otherwise
    the array of matches. *)
Record GeoData : Type := { results : option (list GeoResult) }.

(** What [response.json()] resolves with.  The body [null] is kept apart:
    reading [data.results] off it throws.  Every other JSON value is a
    [JsonObject]; one that is no object, or has no [results] member, reads
    as [results] missing. *)
Inductive JsonBody : Type :=
| JsonNull
| JsonObject (data : GeoData).

(** The [Response] of [fetch], as far as the code reads it.  [json] is
    [None] when [response.json()] rejects (the body is not JSON). *)
Record Response : Type := {
  status : Z;
  statusText : string;
  json : option JsonBody
}.

(** [response.ok] is defined by the Fetch standard as a status in
    200..299. *)
Definition ok (response : Response) : bool :=
  (200 <=? status response) && (status response <=? 299).

(** What [await fetch(geoUrl, { signal })] does on a given attempt: the
    promise resolves with a response, or rejects (a network failure, or
    the [AbortError] raised when the timeout fires and aborts the
    request). *)
Inductive FetchOutcome : Type :=
| Responded (response : Response)
| Rejected (error : Thrown).

(** The outside world: URL encoding and the network.  [fetch url n] is
    the outcome of the [n]-th call (counted from 0) for [url]. *)
Record Env : Type := {
  encodeURIComponent : string -> string;
  fetch : string -> nat -> FetchOutcome
}.

(** The value [geocodeCity] resolves with. *)
Record Location : Type := {
  latitude : Q;
  longitude : Q;
  name : string;
  country : option string;
  timezone : string
}.

(** Observable steps of a call: a request is issued, or the loop sleeps
    for a backoff delay (in ms). *)
Inductive Event : Type :=
| EvFetch (attempt : nat)
| EvWait (ms : Z).

Definition searchQuery (city : string) (country : option string) : string :=
  match country with
  | Some c => if truthy_string c then city +:+ ", " +:+ c else city
  | None => city
  end.

Definition geoUrl (env : Env) (city : string) (country : option string) : string :=
  "https://geocoding-api.open-meteo.com/v1/search?name="
    +:+ encodeURIComponent env (searchQuery city country)
    +:+ "&count=1&language=en&format=json".

Definition serverErrorMessage (response : Response) : string :=
  "Geocoding API server error (" +:+ showZ (status response) +:+ "): "
    +:+ statusText response +:+ ". The service may be temporarily down.".

Definition rateLimitMessage : string :=
  "Geocoding API rate limit exceeded. Please try again later.".

Definition apiErrorMessage (response : Response) : string :=
  "Geocoding API error (" +:+ showZ (status response) +:+ "): "
    +:+ statusText response.

Definition invalidJsonMessage : string :=
  "Geocoding API returned invalid JSON response. The service may be experiencing issues.".

Definition cityNotFoundMessage (city : string) (country : option string) : string :=
  "City not found: " +:+ dquote +:+ city +:+ dquote
    +:+ match country with
        | Some c => if truthy_string c then " in " +:+ c else EmptyString
        | None => EmptyString
        end
    +:+ ". Please check the spelling and try again.".

(** The [TypeError] raised by [data.results] when [data] is [null], as V8
    words it. *)
Definition nullBodyError : Thrown :=
  ErrorObject "TypeError" "Cannot read properties of null (reading 'results')".

Definition incompleteDataMessage : string :=
  "Geocoding API returned incomplete data. The service may be experiencing issues.".

Definition timeoutMessage (timeoutMs : Z) : string :=
  "Geocoding API request timed out after " +:+ showZ timeoutMs
    +:+ "ms. The service may be slow or down.".

Definition exhaustedMessage : string :=
  "Geocoding failed after all retry attempts".

(** The body of the [try] block, from the outcome of [fetch] on. *)
Definition attemptBody (city : string) (country : option string)
    (outcome : FetchOutcome) : Completion Location :=
  match outcome with
  | Rejected error => Throw error
  | Responded response =>
    if negb (ok response) then
      if 500 <=? status response then
        Throw (new_Error (serverErrorMessage response))
      else if status response =? 429 then
        Throw (new_Error rateLimitMessage)
      else
        Throw (new_Error (apiErrorMessage response))
    else
      match json response with
      | None => Throw (new_Error invalidJsonMessage)
      | Some JsonNull => Throw nullBodyError
      | Some (JsonObject data) =>
        match results data with
        | None | Some [] => Throw (new_Error (cityNotFoundMessage city country))
        | Some (result :: _) =>
          match r_latitude result, r_longitude result,
                r_name result, r_timezone result with
          | Some lat, Some lon, Some nm, Some tz =>
            if negb (truthy_onumber (Some lat)) || negb (truthy_onumber (Some lon))
               || negb (truthy_string nm) || negb (truthy_string tz)
            then Throw (new_Error incompleteDataMessage)
            else Normal {| latitude := lat;
                           longitude := lon;
                           name := nm;
                           country := if truthy_ostring (r_country_code result)
                                      then r_country_code result
                                      else r_country result;
                           timezone := tz |}
          | _, _, _, _ => Throw (new_Error incompleteDataMessage)
          end
        end
      end
  end.

(** [lastError = error instanceof Error ? error : new Error(String(error))] *)
Definition asError (error : Thrown) : Thrown :=
  match error with
  | ErrorObject _ _ => error
  | NonError s => new_Error s
  end.

(** The first test of the [catch] block: these errors are rethrown at
    once. *)
Definition isTerminal (lastError : Thrown) : bool :=
  includes (messageOf lastError) "City not found"
  || includes (messageOf lastError) "rate limit".

(** [error instanceof Error && error.name === 'AbortError'] *)
Definition isAbortError (error : Thrown) : bool :=
  match error with
  | ErrorObject nm _ => String.eqb nm "AbortError"
  | NonError _ => false
  end.

(** [lastError] as it stands after the timeout relabelling. *)
Definition relabel (timeoutMs : Z) (error : Thrown) : Thrown :=
  if isAbortError error then new_Error (timeoutMessage timeoutMs) else asError error.

(** [Math.pow(2, attempt) * 1000] *)
Definition backoffMs (attempt : nat) : Z := 2 ^ Z.of_nat attempt * 1000.

Definition Run : Type := list Event * Completion Location.

(** The [for] loop, entered at the test [attempt < maxRetries] with the
    current [lastError].  [fuel] bounds the number of iterations;
    [geocodeCity] below supplies enough of it. *)
Fixpoint attemptLoop (env : Env) (city : string) (country : option string)
    (maxRetries timeoutMs : Z) (fuel : nat) (attempt : nat)
    (lastError : option Thrown) : option Run :=
  match fuel with
  | O => None
  | S fuel' =>
    if Z.of_nat attempt <? maxRetries then
      match attemptBody city country (fetch env (geoUrl env city country) attempt) with
      | Normal location => Some ([EvFetch attempt], Normal location)
      | Throw error =>
        let lastError1 := asError error in
        if isTerminal lastError1 then
          Some ([EvFetch attempt], Throw lastError1)
        else
          let lastError2 := relabel timeoutMs error in
          if Z.of_nat attempt <? maxRetries - 1 then
            match attemptLoop env city country maxRetries timeoutMs
                              fuel' (S attempt) (Some lastError2) with
            | Some (trace, result) =>
              Some (EvFetch attempt :: EvWait (backoffMs attempt) :: trace, result)
            | None => None
            end
          else
            Some ([EvFetch attempt], Throw lastError2)
      end
    else
      Some ([], Throw (default (new_Error exhaustedMessage) lastError))
  end.

Definition geocodeCity (env : Env) (city : string) (country : option string)
    (maxRetries timeoutMs : Z) : option Run :=
  attemptLoop env city country maxRetries timeoutMs
              (S (Z.to_nat maxRetries)) 0 None.

(** The call as every caller in the file makes it:
    [geocodeCity(city, country)] with [maxRetries = 3] and
    [timeoutMs = 10000]. *)
Definition geocodeCity_default (env : Env) (city : string) (country : option string)
  : option Run :=
  geocodeCity env city country 3 10000.

(** Reading a run. *)
Definition isFetch (ev : Event) : bool :=
  match ev with EvFetch _ => true | EvWait _ => false end.

Definition attemptsMade (trace : list Event) : nat :=
  length (List.filter isFetch trace).

Definition waits (trace : list Event) : list Z :=
  omap (fun ev => match ev with EvWait ms => Some ms | EvFetch _ => None end) trace.

(** The trace of [k] failed-and-retried attempts starting at [attempt]. *)
Definition retried (attempt k : nat) : list Event :=
  flat_map (fun a => [EvFetch a; EvWait (backoffMs a)]) (seq attempt k).

(** An attempt whose failure the [catch] block does not rethrow at once. *)
Definition retryableFailure (city : string) (country : option string)
    (outcome : FetchOutcome) : bool :=
  match attemptBody city country outcome with
  | Normal _ => false
  | Throw error => negb (isTerminal (asError error))
  end.

(** The error an attempt leaves in [lastError] (after relabelling). *)
Definition errorOf (city : string) (country : option string) (timeoutMs : Z)
    (outcome : FetchOutcome) : Thrown :=
  match attemptBody city country outcome with
  | Normal _ => new_Error exhaustedMessage
  | Throw error => if isTerminal (asError error) then asError error
                   else relabel timeoutMs error
  end.

(** A run continued after the events [pre]. *)
Definition withPrefix (pre : list Event) (run : option Run) : option Run :=
  match run with
  | Some (trace, result) => Some (pre ++ trace, result)
  | None => None
  end.

End Geocode.

(** ** [ConnectionRegistry] (SSE server with message routing) *)

Module Registry.

(** [SSEServerTransport] and [Server] objects are opaque to the registry,
    which only stores the references; a reference is modelled by the
    identity of the object it points to. *)
Definition TransportRef : Type := nat.
Definition ServerRef : Type := nat.

(** [interface SSEConnection]; a [Date] is its [getTime()], milliseconds
    since the epoch. *)
Record SSEConnection : Type := {
  sessionId : string;
  transport : TransportRef;
  server : ServerRef;
  createdAt : Z;
  lastActivity : Z
}.

(** [private connections = new Map<string, SSEConnection>()].  The
    sweep timer handle [cleanupInterval] is kept as a flag: it is
    running from construction until [shutdown]. *)
Record ConnectionRegistry : Type := {
  connections : gmap string SSEConnection;
  cleanupInterval : bool
}.

(** [constructor()] *)
Definition create : ConnectionRegistry :=
  {| connections := ∅; cleanupInterval := true |}.

(** [register(sessionId, transport, server)], with [now = new Date()]
    read inside the method.  [Map.prototype.set] adds the key or
    overwrites the value already stored under it. *)
Definition register (now : Z) (id : string) (tr : TransportRef) (sv : ServerRef)
    (reg : ConnectionRegistry) : ConnectionRegistry :=
  {| connections :=
       <[ id := {| sessionId := id; transport := tr; server := sv;
                   createdAt := now; lastActivity := now |} ]> (connections reg);
     cleanupInterval := cleanupInterval reg |}.

(** [connection.lastActivity = new Date()] *)
Definition touch (now : Z) (c : SSEConnection) : SSEConnection :=
  {| sessionId := sessionId c; transport := transport c; server := server c;
     createdAt := createdAt c; lastActivity := now |}.

(** [get(sessionId)].  The object returned is the one stored in the
    map, so the assignment to [lastActivity] shows in both: the method
    yields the touched connection and the registry holding it. *)
Definition get (now : Z) (id : string) (reg : ConnectionRegistry)
  : option SSEConnection * ConnectionRegistry :=
  match connections reg !! id with
  | Some connection =>
    let connection' := touch now connection in
    (Some connection',
     {| connections := <[ id := connection' ]> (connections reg);
        cleanupInterval := cleanupInterval reg |})
  | None => (None, reg)
  end.

(** [remove(sessionId)]: [Map.prototype.delete], a no-op on an absent
    key. *)
Definition remove (id : string) (reg : ConnectionRegistry) : ConnectionRegistry :=
  {| connections := delete id (connections reg);
     cleanupInterval := cleanupInterval reg |}.

(** [const timeout = 30 * 60 * 1000; // 30 minutes] *)
Definition timeout : Z := 30 * 60 * 1000.

(** The loop body of [cleanupStaleConnections] for one entry. *)
Definition cleanupStep (now : Z) (reg : ConnectionRegistry)
    (entry : string * SSEConnection) : ConnectionRegistry :=
  let inactive := now - lastActivity entry.2 in
  if timeout <? inactive then remove entry.1 reg else reg.

(** The sweep over a given sequence of entries. *)
Definition cleanupOver (now : Z) (entries : list (string * SSEConnection))
    (reg : ConnectionRegistry) : ConnectionRegistry :=
  foldl (cleanupStep now) reg entries.

(** [cleanupStaleConnections()], with [now = new Date()] read at its
    start.  The [for ... of] visits each entry of the map once; the only
    key the body deletes is the one being visited, so the entries
    visited are those present when the loop starts. *)
Definition cleanupStaleConnections (now : Z) (reg : ConnectionRegistry)
  : ConnectionRegistry :=
  cleanupOver now (map_to_list (connections reg)) reg.

(** [shutdown()] *)
Definition shutdown (reg : ConnectionRegistry) : ConnectionRegistry :=
  {| connections := ∅; cleanupInterval := false |}.

(** [size()] *)
Definition size (reg : ConnectionRegistry) : nat :=
  base.size (connections reg).

(** An entry is stale at [now] when the sweep's test holds of it. *)
Definition stale (now : Z) (c : SSEConnection) : bool :=
  timeout <? now - lastActivity c.

End Registry.

(** ** The tool-call handler (src/index.ts) *)

Module Tools.
Import JS.

(** What the five schemas yield once [parse] accepts the arguments. *)
Record CityArgs : Type := {
  city : string;
  country : option string
}.

Record ForecastArgs : Type := {
  f_city : string;
  f_country : option string;
  days : Q
}.

Record GrowingArgs : Type := {
  g_city : string;
  g_country : option string;
  base_temp : Q
}.

Record HistoricalArgs : Type := {
  h_city : string;
  h_country : option string;
  month : Q;
  years_back : Q
}.

(** One element of [content], and the object the handler returns;
    [isError] is absent ([None]) on the success paths. *)
Record Content : Type := {
  type : string;
  text : string
}.

Record CallToolResult : Type := {
  content : list Content;
  isError : option bool
}.

Section Handler.
(** [RawArgs] is [request.params.arguments] as received, [Data] the
    objects the fetch functions resolve with. *)
Variables RawArgs Data : Type.

Record Request : Type := {
  params_name : string;
  params_arguments : RawArgs
}.

(** Everything the handler calls.  Each of them may throw: [parse]
    when the schema rejects the arguments, a fetch function on any
    upstream or domain failure. *)
Record Callees : Type := {
  GetCurrentWeatherArgsSchema_parse : RawArgs -> Completion CityArgs;
  GetWeatherForecastArgsSchema_parse : RawArgs -> Completion ForecastArgs;
  GetWeatherAlertsArgsSchema_parse : RawArgs -> Completion CityArgs;
  GetGrowingConditionsArgsSchema_parse : RawArgs -> Completion GrowingArgs;
  GetHistoricalWeatherArgsSchema_parse : RawArgs -> Completion HistoricalArgs;
  fetchCurrentWeather : string -> option string -> Completion Data;
  fetchWeatherForecast : string -> option string -> Q -> Completion Data;
  fetchWeatherAlerts : string -> option string -> Completion Data;
  fetchGrowingConditions : string -> option string -> Q -> Completion Data;
  fetchHistoricalWeather : string -> Q -> option string -> Q -> Completion Data;
  JSON_stringify : Data -> Completion string
}.

Variable env : Callees.

(** [{ content: [{ type: "text", text: JSON.stringify(data, null, 2) }] }] *)
Definition textResult (data : Data) : Completion CallToolResult :=
  s <- JSON_stringify env data ;;
  Normal {| content := [ {| type := "text"; text := s |} ]; isError := None |}.

(** The body of the [try] block: the chain of tests on
    [request.params.name]. *)
Definition dispatch (request : Request) : Completion CallToolResult :=
  if String.eqb (params_name request) "get_current_weather" then
    args <- GetCurrentWeatherArgsSchema_parse env (params_arguments request) ;;
    weatherData <- fetchCurrentWeather env (city args) (country args) ;;
    textResult weatherData
  else if String.eqb (params_name request) "get_weather_forecast" then
    args <- GetWeatherForecastArgsSchema_parse env (params_arguments request) ;;
    forecastData <- fetchWeatherForecast env (f_city args) (f_country args) (days args) ;;
    textResult forecastData
  else if String.eqb (params_name request) "get_weather_alerts" then
    args <- GetWeatherAlertsArgsSchema_parse env (params_arguments request) ;;
    alertsData <- fetchWeatherAlerts env (city args) (country args) ;;
    textResult alertsData
  else if String.eqb (params_name request) "get_growing_conditions" then
    args <- GetGrowingConditionsArgsSchema_parse env (params_arguments request) ;;
    growingData <- fetchGrowingConditions env (g_city args) (g_country args) (base_temp args) ;;
    textResult growingData
  else if String.eqb (params_name request) "get_historical_weather" then
    args <- GetHistoricalWeatherArgsSchema_parse env (params_arguments request) ;;
    historicalData <- fetchHistoricalWeather env (h_city args) (month args)
                                             (h_country args) (years_back args) ;;
    textResult historicalData
  else
    Throw (new_Error ("Unknown tool: " +:+ params_name request)).

(** The object built in the [catch] block. *)
Definition errorResult (error : Thrown) : CallToolResult :=
  {| content := [ {| type := "text"; text := "Error: " +:+ messageOf error |} ];
     isError := Some true |}.

(** The handler registered for [CallToolRequestSchema]. *)
Definition callTool (request : Request) : Completion CallToolResult :=
  try_catch (dispatch request) (fun error => Normal (errorResult error)).

End Handler.

Arguments params_name {RawArgs} _.
Arguments params_arguments {RawArgs} _.
Arguments GetCurrentWeatherArgsSchema_parse {RawArgs Data} _ _.
Arguments GetWeatherForecastArgsSchema_parse {RawArgs Data} _ _.
Arguments GetWeatherAlertsArgsSchema_parse {RawArgs Data} _ _.
Arguments GetGrowingConditionsArgsSchema_parse {RawArgs Data} _ _.
Arguments GetHistoricalWeatherArgsSchema_parse {RawArgs Data} _ _.
Arguments fetchCurrentWeather {RawArgs Data} _ _ _.
Arguments fetchWeatherForecast {RawArgs Data} _ _ _ _.
Arguments fetchWeatherAlerts {RawArgs Data} _ _ _.
Arguments fetchGrowingConditions {RawArgs Data} _ _ _ _.
Arguments fetchHistoricalWeather {RawArgs Data} _ _ _ _ _.
Arguments JSON_stringify {RawArgs Data} _ _.
Arguments dispatch {RawArgs Data} env request.
Arguments callTool {RawArgs Data} env request.
Arguments textResult {RawArgs Data} env data.

(** The names the handler answers to. *)
Definition toolNames : list string :=
  [ "get_current_weather"; "get_weather_forecast"; "get_weather_alerts";
    "get_growing_conditions"; "get_historical_weather" ].

(** The schema of the tool named rejects the arguments. *)
Definition schemaRejects {RawArgs Data : Type} (env : Callees RawArgs Data)
    (request : Request RawArgs) (error : Thrown) : Prop :=
  (params_name request = "get_current_weather"
   /\ GetCurrentWeatherArgsSchema_parse env (params_arguments request) = Throw error)
  \/ (params_name request = "get_weather_forecast"
      /\ GetWeatherForecastArgsSchema_parse env (params_arguments request) = Throw error)
  \/ (params_name request = "get_weather_alerts"
      /\ GetWeatherAlertsArgsSchema_parse env (params_arguments request) = Throw error)
  \/ (params_name request = "get_growing_conditions"
      /\ GetGrowingConditionsArgsSchema_parse env (params_arguments request) = Throw error)
  \/ (params_name request = "get_historical_weather"
      /\ GetHistoricalWeatherArgsSchema_parse env (params_arguments request) = Throw error).

(** The schema of the tool named accepts the arguments and the fetch
    function called with them throws. *)
Definition upstreamFails {RawArgs Data : Type} (env : Callees RawArgs Data)
    (request : Request RawArgs) (error : Thrown) : Prop :=
  (params_name request = "get_current_weather"
   /\ exists args,
        GetCurrentWeatherArgsSchema_parse env (params_arguments request) = Normal args
        /\ fetchCurrentWeather env (city args) (country args) = Throw error)
  \/ (params_name request = "get_weather_forecast"
      /\ exists args,
           GetWeatherForecastArgsSchema_parse env (params_arguments request) = Normal args
           /\ fetchWeatherForecast env (f_city args) (f_country args) (days args)
              = Throw error)
  \/ (params_name request = "get_weather_alerts"
      /\ exists args,
           GetWeatherAlertsArgsSchema_parse env (params_arguments request) = Normal args
           /\ fetchWeatherAlerts env (city args) (country args) = Throw error)
  \/ (params_name request = "get_growing_conditions"
      /\ exists args,
           GetGrowingConditionsArgsSchema_parse env (params_arguments request) = Normal args
           /\ fetchGrowingConditions env (g_city args) (g_country args) (base_temp args)
              = Throw error)
  \/ (params_name request = "get_historical_weather"
      /\ exists args,
           GetHistoricalWeatherArgsSchema_parse env (params_arguments request) = Normal args
           /\ fetchHistoricalWeather env (h_city args) (month args)
                                     (h_country args) (years_back args)
              = Throw error).


End Tools.

(** ** Growing degree days ([fetchGrowingConditions]) *)

Module Growing.

(** A JavaScript number, read without rounding: finite values are exact
    rationals; the non-finite values are kept because a division by a
    zero length produces them.  What the code computes in double
    precision is [GrowingDouble] below; the two differ where a sum or a
    quotient rounds. *)
Inductive number : Type :=
| NaN
| PosInfinity
| NegInfinity
| Finite (q : Q).

(** [a / b] on finite operands, [b] not negative. *)
Definition divide (a b : Q) : number :=
  if Qeq_bool b 0 then
    if Qeq_bool a 0 then NaN
    else if Qle_bool 0 a then PosInfinity else NegInfinity
  else Finite (a / b).

(** [x - b] for a finite [b]. *)
Definition minus (x : number) (b : Q) : number :=
  match x with
  | Finite q => Finite (q - b)
  | other => other
  end.

(** [Math.max(0, x)] *)
Definition Math_max_0 (x : number) : number :=
  match x with
  | NaN => NaN
  | PosInfinity => PosInfinity
  | NegInfinity => Finite 0
  | Finite q => Finite (Qmax 0 q)
  end.

(** [hourlyTemps.reduce((sum, temp) => sum + temp, 0)] *)
Definition reduceSum (l : list Q) : Q := foldl Qplus 0%Q l.

(** The three statements computing [gdd] from
    [data.hourly.temperature_2m] and [baseTemp]. *)
Definition growingDegreeDays (temperature_2m : list Q) (baseTemp : Q) : number :=
  let hourlyTemps := take 24 temperature_2m in
  let avgTemp := divide (reduceSum hourlyTemps) (inject_Z (Z.of_nat (length hourlyTemps))) in
  Math_max_0 (minus avgTemp baseTemp).

End Growing.

(** ** Growing degree days in double precision *)

Module GrowingDouble.

(** A JavaScript number is an IEEE 754 binary64 value: the primitive
    [float], whose operations round to nearest, ties to even, as
    JavaScript's do. *)
Definition number : Set := float.

(** [Math.max(x, y)]: [NaN] if either argument is; otherwise the larger,
    with [+0] larger than [-0]. *)
Definition Math_max (x y : number) : number :=
  if PrimFloat.is_nan x || PrimFloat.is_nan y then PrimFloat.nan
  else if PrimFloat.ltb x y then y
  else if PrimFloat.ltb y x then x
  else if PrimFloat.is_zero x && PrimFloat.get_sign x then y
  else x.

(** [hourlyTemps.length], as a number. *)
Definition lengthOf (l : list number) : number :=
  PrimFloat.of_uint63 (Uint63.of_Z (Z.of_nat (length l))).

(** [hourlyTemps.reduce((sum, temp) => sum + temp, 0)] *)
Definition reduceSum (l : list number) : number :=
  foldl PrimFloat.add PrimFloat.zero l.

(** The three statements computing [gdd] from
    [data.hourly.temperature_2m] and [baseTemp]. *)
Definition growingDegreeDays (temperature_2m : list number) (baseTemp : number)
  : number :=
  let hourlyTemps := take 24 temperature_2m in
  let avgTemp := PrimFloat.div (reduceSum hourlyTemps) (lengthOf hourlyTemps) in
  let gdd := Math_max PrimFloat.zero (PrimFloat.sub avgTemp baseTemp) in
  gdd.

(** [growing_metrics.description] *)
Definition description (gdd : number) : string :=
  if PrimFloat.ltb PrimFloat.zero gdd then "Conditions favorable for plant growth"
  else "Temperature below growing threshold".

(** The double nearest to 10.3, and a day of 24 such readings. *)
Definition tenPointThree : number := 0x1.499999999999ap+3%float.

Definition steadyDay : list number := repeat tenPointThree 24.

(** A warm day: 12 readings of 18 and 12 of 22 degrees. *)
Definition warmDay : list number := repeat 18%float 12 ++ repeat 22%float 12.

End GrowingDouble.

(** ** Concrete upstream behaviours *)

Module Samples.
Import JS Geocode.

Definition manila : GeoResult :=
  {| r_latitude := Some (146 # 10)%Q;
     r_longitude := Some (121 # 1)%Q;
     r_name := Some "Manila";
     r_country_code := Some "PH";
     r_country := Some "Philippines";
     r_timezone := Some "Asia/Manila" |}.

Definition manilaLocation : Location :=
  {| latitude := (146 # 10)%Q;
     longitude := (121 # 1)%Q;
     name := "Manila";
     country := Some "PH";
     timezone := "Asia/Manila" |}.

Definition found : Response :=
  {| status := 200; statusText := "OK";
     json := Some (JsonObject {| results := Some [manila] |}) |}.

Definition noMatch : Response :=
  {| status := 200; statusText := "OK";
     json := Some (JsonObject {| results := Some [] |}) |}.

Definition noResultsKey : Response :=
  {| status := 200; statusText := "OK";
     json := Some (JsonObject {| results := None |}) |}.

(** A 200 whose body is the JSON text [null]. *)
Definition nullBody : Response :=
  {| status := 200; statusText := "OK"; json := Some JsonNull |}.

Definition notJson : Response :=
  {| status := 200; statusText := "OK"; json := None |}.

Definition notFound404 : Response :=
  {| status := 404; statusText := "Not Found"; json := None |}.

Definition tooMany429 : Response :=
  {| status := 429; statusText := "Too Many Requests"; json := None |}.

Definition unavailable503 : Response :=
  {| status := 503; statusText := "Service Unavailable"; json := None |}.

(** A network answering the [n]-th request with [answers n]. *)
Definition network (answers : nat -> FetchOutcome) : Env :=
  {| encodeURIComponent := fun s => s;
     fetch := fun _ n => answers n |}.

Definition always (response : Response) : Env :=
  network (fun _ => Responded response).

(** [first] on the first request, [found] on every later one. *)
Definition thenFound (first : Response) : Env :=
  network (fun n => match n with
                    | O => Responded first
                    | S _ => Responded found
                    end).

(** A registry holding the single session "s1", opened at time 0. *)
Definition firstEntry : Registry.SSEConnection :=
  {| Registry.sessionId := "s1"; Registry.transport := 1%nat; Registry.server := 1%nat;
     Registry.createdAt := 0; Registry.lastActivity := 0 |}.

Definition oneSession : Registry.ConnectionRegistry :=
  Registry.register 0 "s1" 1%nat 1%nat Registry.create.

(** The entry a second [register] of "s1" stores, at time 5, for another
    transport and server. *)
Definition secondEntry : Registry.SSEConnection :=
  {| Registry.sessionId := "s1"; Registry.transport := 2%nat; Registry.server := 2%nat;
     Registry.createdAt := 5; Registry.lastActivity := 5 |}.

(** Callees of the tool handler that all fail: every schema rejects its
    arguments, every fetch function throws. *)
Definition schemaError : Thrown := ErrorObject "ZodError" "Required".
Definition upstreamError : Thrown := new_Error "Weather API error: Bad Gateway".

Definition failing : Tools.Callees unit unit :=
  {| Tools.GetCurrentWeatherArgsSchema_parse := fun _ => Throw schemaError;
     Tools.GetWeatherForecastArgsSchema_parse := fun _ => Throw schemaError;
     Tools.GetWeatherAlertsArgsSchema_parse := fun _ => Throw schemaError;
     Tools.GetGrowingConditionsArgsSchema_parse := fun _ => Throw schemaError;
     Tools.GetHistoricalWeatherArgsSchema_parse := fun _ => Throw schemaError;
     Tools.fetchCurrentWeather := fun _ _ => Throw upstreamError;
     Tools.fetchWeatherForecast := fun _ _ _ => Throw upstreamError;
     Tools.fetchWeatherAlerts := fun _ _ => Throw upstreamError;
     Tools.fetchGrowingConditions := fun _ _ _ => Throw upstreamError;
     Tools.fetchHistoricalWeather := fun _ _ _ _ => Throw upstreamError;
     Tools.JSON_stringify := fun _ => Normal "{}" |}.

Definition request (toolName : string) : Tools.Request unit :=
  {| Tools.params_name := toolName; Tools.params_arguments := tt |}.

(** Hourly temperatures of a cool day: 24 readings of 8 degrees. *)
Definition coolDay : list Q := repeat (8 # 1)%Q 24.

(** Hourly temperatures of a warm day: 24 readings of 25 degrees. *)
Definition warmDay : list Q := repeat (25 # 1)%Q 24.

End Samples.

(** ** Histories of the registry *)

Module RegistryOps.
Import Registry.

(** A call on the registry object. *)
Inductive Op : Type :=
| OpRegister (id : string) (tr : TransportRef) (sv : ServerRef)
| OpGet (id : string)
| OpRemove (id : string)
| OpSweep
| OpShutdown.

(** The registry after the call, made when the clock reads [now]. *)
Definition applyOp (now : Z) (op : Op) (reg : ConnectionRegistry) : ConnectionRegistry :=
  match op with
  | OpRegister id tr sv => register now id tr sv reg
  | OpGet id => (get now id reg).2
  | OpRemove id => remove id reg
  | OpSweep => cleanupStaleConnections now reg
  | OpShutdown => shutdown reg
  end.

(** A history: calls with the time each is made at, oldest first. *)
Fixpoint runOps (history : list (Z * Op)) (reg : ConnectionRegistry) : ConnectionRegistry :=
  match history with
  | [] => reg
  | (now, op) :: later => runOps later (applyOp now op reg)
  end.

(** The clock never runs backwards along the history, starting at [t]. *)
Fixpoint clockMonotone (t : Z) (history : list (Z * Op)) : Prop :=
  match history with
  | [] => True
  | (now, _) :: later => t <= now /\ clockMonotone now later
  end.

(** The last time of the history ([t] when there is none). *)
Fixpoint lastTime (t : Z) (history : list (Z * Op)) : Z :=
  match history with
  | [] => t
  | (now, _) :: later => lastTime now later
  end.

(** What holds of every entry stored under [id] when the clock reads
    [t]: it carries its own key, and its two times are in order and not
    in the future. *)
Definition entryOk (t : Z) (id : string) (c : SSEConnection) : Prop :=
  sessionId c = id /\ createdAt c <= lastActivity c /\ lastActivity c <= t.

End RegistryOps.

(** ** The SSE and message endpoints (SSE server with message routing) *)

Module Http.
Import JS Registry.

(** How a [POST /message] request ends. *)
Inductive MessageOutcome : Type :=
| BadRequest                      (* 400, "Missing session parameter" *)
| SessionNotFound                 (* 404, "Session not found or expired" *)
| Forwarded (tr : TransportRef)   (* handed to [connection.transport.handlePostMessage] *)
| InternalError.                  (* 500, "Internal server error" *)

(** The [POST /message] branch of the request handler.  [session] is
    [url.searchParams.get('session')] ([None] for [null]); [bodyIsJson]
    tells whether [JSON.parse(body)] goes through. *)
Definition postMessage (now : Z) (session : option string) (bodyIsJson : bool)
    (reg : ConnectionRegistry) : MessageOutcome * ConnectionRegistry :=
  match session with
  | None => (BadRequest, reg)
  | Some sessionId =>
    if negb (truthy_string sessionId) then (BadRequest, reg)
    else
      match get now sessionId reg with
      | (None, reg') => (SessionNotFound, reg')
      | (Some connection, reg') =>
        if bodyIsJson then (Forwarded (transport connection), reg')
        else (InternalError, reg')
      end
  end.

(** The [/sse] branch: the connection is registered under the identifier
    [randomUUID()] returned. *)
Definition openSse (now : Z) (uuid : string) (tr : TransportRef) (sv : ServerRef)
    (reg : ConnectionRegistry) : ConnectionRegistry :=
  register now uuid tr sv reg.

(** The [close] listener of the response. *)
Definition onClose (sessionId : string) (reg : ConnectionRegistry) : ConnectionRegistry :=
  remove sessionId reg.

End Http.

(** ** Weather alerts ([fetchWeatherAlerts], src/index.ts) *)

Module Alerts.
Import JS Growing.

(** [const WEATHER_CODES: Record<number, string>] *)
Definition WEATHER_CODES : list (Z * string) :=
  [ (0, "Clear sky"); (1, "Mainly clear"); (2, "Partly cloudy"); (3, "Overcast");
    (45, "Foggy"); (48, "Depositing rime fog");
    (51, "Light drizzle"); (53, "Moderate drizzle"); (55, "Dense drizzle");
    (61, "Slight rain"); (63, "Moderate rain"); (65, "Heavy rain");
    (71, "Slight snow fall"); (73, "Moderate snow fall"); (75, "Heavy snow fall");
    (77, "Snow grains");
    (80, "Slight rain showers"); (81, "Moderate rain showers");
    (82, "Violent rain showers");
    (85, "Slight snow showers"); (86, "Heavy snow showers");
    (95, "Thunderstorm"); (96, "Thunderstorm with slight hail");
    (99, "Thunderstorm with heavy hail") ].

(** [table[code]] for an integer code; [None] is [undefined]. *)
Fixpoint lookupCode (table : list (Z * string)) (code : Z) : option string :=
  match table with
  | [] => None
  | (key, text) :: rest => if code =? key then Some text else lookupCode rest code
  end.

(** [WEATHER_CODES[data.current.weather_code] || "Unknown"], the [weather]
    field [fetchCurrentWeather] returns. *)
Definition weather (weather_code : Z) : string :=
  match lookupCode WEATHER_CODES weather_code with
  | Some text => if truthy_string text then text else "Unknown"
  | None => "Unknown"
  end.

(** [toLowerCase] on the letters A-Z; the other characters of the texts
    above are left as they are. *)
Definition lowerChar (c : ascii) : ascii :=
  let n := nat_of_ascii c in
  if (65 <=? n)%nat && (n <=? 90)%nat then ascii_of_nat (n + 32) else c.

Fixpoint toLowerCase (s : string) : string :=
  match s with
  | EmptyString => EmptyString
  | String c rest => String (lowerChar c) (toLowerCase rest)
  end.

(** [x > c] and [x < c] for a number [x], as [parseFloat] returns it, and
    a finite constant [c]: every comparison with [NaN] is false. *)
Definition gt (x : number) (c : Q) : bool :=
  match x with
  | NaN | NegInfinity => false
  | PosInfinity => true
  | Finite q => negb (Qle_bool q c)
  end.

Definition lt (x : number) (c : Q) : bool :=
  match x with
  | NaN | PosInfinity => false
  | NegInfinity => true
  | Finite q => negb (Qle_bool c q)
  end.

Definition heatWarning : string := "⚠️ Extreme Heat Warning: Temperature exceeds 35°C".
Definition coldWarning : string := "⚠️ Extreme Cold Warning: Temperature below -10°C".
Definition windWarning : string := "⚠️ High Wind Warning: Wind speeds exceed 50 km/h".
Definition rainWarning : string :=
  "⚠️ Heavy Precipitation Warning: Significant rainfall detected".
Definition stormWarning : string := "⚠️ Thunderstorm Warning: Severe weather conditions".
Definition noAlerts : string := "✓ No weather alerts at this time".

(** The [alerts] field of what [fetchWeatherAlerts] returns, from the
    three numbers [parseFloat] yields ([temp], [windSpeed],
    [precipitation]) and [currentWeather.current.weather]. *)
Definition alerts (temp windSpeed precipitation : number) (weatherText : string)
    : list string :=
  let alerts0 : list string := [] in
  let alerts1 :=
    if gt temp (35 # 1) then alerts0 ++ [heatWarning]
    else if lt temp (-10 # 1) then alerts0 ++ [coldWarning]
    else alerts0 in
  let alerts2 :=
    if gt windSpeed (50 # 1) then alerts1 ++ [windWarning] else alerts1 in
  let alerts3 :=
    if gt precipitation (20 # 1) then alerts2 ++ [rainWarning] else alerts2 in
  let alerts4 :=
    if includes (toLowerCase weatherText) "thunderstorm"
    then alerts3 ++ [stormWarning] else alerts3 in
  if (0 <? length alerts4)%nat then alerts4 else [noAlerts].

End Alerts.

(** ** Historical weather ([fetchHistoricalWeather], src/sse-server.ts) *)

Module Historical.
Import JS Growing.

(** [data.daily], the five series read from the archive. *)
Record Daily : Type := {
  temperature_2m_mean : list Q;
  temperature_2m_max : list Q;
  temperature_2m_min : list Q;
  precipitation_sum : list Q;
  wind_speed_10m_max : list Q
}.

(** The archive response; [daily] is [None] when [response.json()]
    rejects. *)
Record ArchiveResponse : Type := {
  ok : bool;
  statusText : string;
  daily : option Daily
}.

Inductive ArchiveOutcome : Type :=
| Responded (response : ArchiveResponse)
| Rejected (error : Thrown).

(** [Math.max(...l)] and [Math.min(...l)]; of no arguments they are
    [-Infinity] and [Infinity]. *)
Definition Math_max (l : list Q) : number :=
  match l with
  | [] => NegInfinity
  | x :: rest => Finite (foldl Qmax x rest)
  end.

Definition Math_min (l : list Q) : number :=
  match l with
  | [] => PosInfinity
  | x :: rest => Finite (foldl Qmin x rest)
  end.

(** [l.reduce((sum, x) => sum + x, 0) / l.length] *)
Definition mean (l : list Q) : number :=
  divide (reduceSum l) (inject_Z (Z.of_nat (length l))).

(** The numbers behind [statistics]; their rendering by [toFixed(1)] and
    the month name are left out. *)
Record Statistics : Type := {
  avg_temperature : number;
  max_temperature : number;
  min_temperature : number;
  total_precipitation : Q;
  avg_wind_speed : number
}.

Record YearEntry : Type := {
  year : Z;
  statistics : Statistics;
  days_in_month : nat
}.

Definition summarise (forYear : Z) (d : Daily) : YearEntry :=
  {| year := forYear;
     statistics :=
       {| avg_temperature := mean (temperature_2m_mean d);
          max_temperature := Math_max (temperature_2m_max d);
          min_temperature := Math_min (temperature_2m_min d);
          total_precipitation := reduceSum (precipitation_sum d);
          avg_wind_speed := mean (wind_speed_10m_max d) |};
     days_in_month := length (temperature_2m_mean d) |}.

(** The archive: what the request for the given month of [year] brings,
    and what [response.json()] rejects with when the body is not JSON. *)
Record Archive : Type := {
  fetchYear : Z -> ArchiveOutcome;
  parseError : Thrown
}.

(** The years requested, in order, and how the call ends. *)
Definition Run : Type := list Z * Completion (list YearEntry).

(** The [for] loop over the years, entered at the test [i < yearsBack]
    with the entries pushed so far. *)
Fixpoint yearLoop (archive : Archive) (currentYear yearsBack : Z)
    (fuel i : nat) (historicalData : list YearEntry) : option Run :=
  match fuel with
  | O => None
  | S fuel' =>
    if Z.of_nat i <? yearsBack then
      let forYear := currentYear - 1 - Z.of_nat i in
      match fetchYear archive forYear with
      | Rejected error => Some ([forYear], Throw error)
      | Responded response =>
        if negb (ok response) then
          Some ([forYear],
                Throw (new_Error ("Historical Weather API error: " +:+ statusText response)))
        else
          match daily response with
          | None => Some ([forYear], Throw (parseError archive))
          | Some d =>
            match yearLoop archive currentYear yearsBack fuel' (S i)
                           (historicalData ++ [summarise forYear d]) with
            | Some (requested, result) => Some (forYear :: requested, result)
            | None => None
            end
          end
      end
    else Some ([], Normal historicalData)
  end.

(** [historical_data] of [fetchHistoricalWeather], once the city is
    geocoded; [currentYear] is [new Date().getFullYear()]. *)
Definition historical_data (archive : Archive) (currentYear yearsBack : Z) : option Run :=
  yearLoop archive currentYear yearsBack (S (Z.to_nat yearsBack)) 0 [].

(** The request for [forYear] brings data. *)
Definition delivers (archive : Archive) (forYear : Z) : Prop :=
  exists response d,
    fetchYear archive forYear = Responded response
    /\ ok response = true /\ daily response = Some d.

(** The error the call throws when the request for [forYear] does not
    bring data. *)
Definition failureOf (archive : Archive) (forYear : Z) : option Thrown :=
  match fetchYear archive forYear with
  | Rejected error => Some error
  | Responded response =>
    if negb (ok response)
    then Some (new_Error ("Historical Weather API error: " +:+ statusText response))
    else match daily response with
         | None => Some (parseError archive)
         | Some _ => None
         end
  end.

(** The year asked for in iteration [i]. *)
Definition yearOf (currentYear : Z) (i : nat) : Z := currentYear - 1 - Z.of_nat i.

(** A run continued after the requests [years]. *)
Definition afterRequests (years : list Z) (run : option Run) : option Run :=
  match run with
  | Some (requested, result) => Some (years ++ requested, result)
  | None => None
  end.

End Historical.

(** ** [geocodeCity] without retries (src/index.ts) *)

Module GeocodeSimple.
Import JS.

(** What the function resolves with: the fields of the first match, taken
    as they come. *)
Record Location : Type := {
  latitude : option Q;
  longitude : option Q;
  name : option string;
  country : option string;
  timezone : option string
}.

(** The function from the outcome of its one [fetch] on; [parseError] is
    what [response.json()] rejects with when the body is not JSON. *)
Definition geocodeCity (city : string) (outcome : Geocode.FetchOutcome)
    (parseError : Thrown) : Completion Location :=
  match outcome with
  | Geocode.Rejected error => Throw error
  | Geocode.Responded response =>
    if negb (Geocode.ok response) then
      Throw (new_Error ("Geocoding API error: " +:+ Geocode.statusText response))
    else
      match Geocode.json response with
      | None => Throw parseError
      | Some Geocode.JsonNull => Throw Geocode.nullBodyError
      | Some (Geocode.JsonObject data) =>
        match Geocode.results data with
        | None | Some [] => Throw (new_Error ("City not found: " +:+ city))
        | Some (result :: _) =>
          Normal {| latitude := Geocode.r_latitude result;
                    longitude := Geocode.r_longitude result;
                    name := Geocode.r_name result;
                    country := if truthy_ostring (Geocode.r_country_code result)
                               then Geocode.r_country_code result
                               else Geocode.r_country result;
                    timezone := Geocode.r_timezone result |}
        end
      end
  end.

(** A location of the retrying version, seen as one of this version. *)
Definition ofChecked (l : Geocode.Location) : Location :=
  {| latitude := Some (Geocode.latitude l);
     longitude := Some (Geocode.longitude l);
     name := Some (Geocode.name l);
     country := Geocode.country l;
     timezone := Some (Geocode.timezone l) |}.

End GeocodeSimple.

(** ** More concrete upstream behaviours *)

Module MoreSamples.
Import JS Geocode Samples.

(** A match lying on the equator: its latitude is 0. *)
Definition onEquator : GeoResult :=
  {| r_latitude := Some (0 # 1)%Q;
     r_longitude := Some (945 # 100)%Q;
     r_name := Some "Equator";
     r_country_code := Some "GA";
     r_country := Some "Gabon";
     r_timezone := Some "Africa/Libreville" |}.

Definition foundOnEquator : Response :=
  {| status := 200; statusText := "OK";
     json := Some (JsonObject {| results := Some [onEquator] |}) |}.

(** A 503 whose reason phrase speaks of a rate limit. *)
Definition busy503 : Response :=
  {| status := 503; statusText := "rate limit reached"; json := None |}.

(** The rejection of a request aborted by the timeout. *)
Definition aborted : FetchOutcome :=
  Rejected (ErrorObject "AbortError" "This operation was aborted").

(** Two failures, then the match. *)
Definition flaky : Env :=
  network (fun n => match n with
                    | O => Responded unavailable503
                    | S O => aborted
                    | S (S _) => Responded found
                    end).

(** A match that carries a name and a timezone but no coordinates. *)
Definition nameOnly : GeoResult :=
  {| r_latitude := None;
     r_longitude := None;
     r_name := Some "Atlantis";
     r_country_code := None;
     r_country := Some "Nowhere";
     r_timezone := Some "UTC" |}.

Definition foundNameOnly : Response :=
  {| status := 200; statusText := "OK";
     json := Some (JsonObject {| results := Some [nameOnly] |}) |}.

(** Three days of archive data. *)
Definition threeDays : Historical.Daily :=
  {| Historical.temperature_2m_mean := [(26 # 1)%Q; (27 # 1)%Q; (28 # 1)%Q];
     Historical.temperature_2m_max := [(30 # 1)%Q; (31 # 1)%Q; (33 # 1)%Q];
     Historical.temperature_2m_min := [(22 # 1)%Q; (23 # 1)%Q; (24 # 1)%Q];
     Historical.precipitation_sum := [(0 # 1)%Q; (5 # 1)%Q; (12 # 1)%Q];
     Historical.wind_speed_10m_max := [(10 # 1)%Q; (14 # 1)%Q; (9 # 1)%Q] |}.

Definition delivered : Historical.ArchiveOutcome :=
  Historical.Responded
    {| Historical.ok := true; Historical.statusText := "OK";
       Historical.daily := Some threeDays |}.

Definition badGateway : Historical.ArchiveOutcome :=
  Historical.Responded
    {| Historical.ok := false; Historical.statusText := "Bad Gateway";
       Historical.daily := None |}.

Definition syntaxError : Thrown := ErrorObject "SyntaxError" "Unexpected token < in JSON".

(** An archive that delivers every year. *)
Definition fullArchive : Historical.Archive :=
  {| Historical.fetchYear := fun _ => delivered;
     Historical.parseError := syntaxError |}.

(** An archive that fails for 2023 and delivers every other year. *)
Definition archiveWithout2023 : Historical.Archive :=
  {| Historical.fetchYear := fun y => if y =? 2023 then badGateway else delivered;
     Historical.parseError := syntaxError |}.

End MoreSamples.

(* ===================================================================== *)
(** * Part II. Properties                                                  *)
(* ===================================================================== *)

(** ** Substring search *)

Module IncludesFacts.
Import JS.

Lemma includes_unfold (s pat : string) :
  includes s pat =
  startsWith s pat
  || match s with
     | EmptyString => false
     | String _ rest => includes rest pat
     end.
Proof. destruct s; reflexivity. Qed.

Lemma includes_of_startsWith (s pat : string) :
  startsWith s pat = true -> includes s pat = true.
Proof. intros H. rewrite includes_unfold, H. reflexivity. Qed.

Lemma startsWith_append (pat rest : string) : startsWith (pat +:+ rest) pat = true.
Proof.
  induction pat as [|c pat IH]; simpl.
  - reflexivity.
  - rewrite Ascii.eqb_refl. exact IH.
Qed.

Lemma includes_append_l (pat rest : string) : includes (pat +:+ rest) pat = true.
Proof. apply includes_of_startsWith, startsWith_append. Qed.

(** A character foreign to the pattern cuts the search in two. *)
Lemma startsWith_app_foreign (c : ascii) (a b pat : string) :
  occursIn c pat = false ->
  startsWith (a +:+ String c b) pat = startsWith a pat.
Proof.
  revert a. induction pat as [|p pat IH]; intros a Hforeign; [reflexivity|].
  simpl in Hforeign. apply orb_false_elim in Hforeign as [Hpc Hrest].
  destruct a as [|x a]; simpl.
  - rewrite Ascii.eqb_sym, Hpc. reflexivity.
  - rewrite IH by exact Hrest. reflexivity.
Qed.

Lemma includes_app_foreign (c : ascii) (a b pat : string) :
  occursIn c pat = false ->
  includes (a +:+ String c b) pat = includes a pat || includes b pat.
Proof.
  intros Hforeign. induction a as [|x a IH].
  - change (EmptyString +:+ String c b) with (String c b).
    rewrite (includes_unfold (String c b)).
    change (String c b) with (EmptyString +:+ String c b) at 1.
    rewrite startsWith_app_foreign by exact Hforeign.
    rewrite (includes_unfold EmptyString), orb_false_r. reflexivity.
  - change (String x a +:+ String c b) with (String x (a +:+ String c b)).
    rewrite (includes_unfold (String x (a +:+ String c b))), IH.
    change (String x (a +:+ String c b)) with (String x a +:+ String c b).
    rewrite startsWith_app_foreign by exact Hforeign.
    rewrite (includes_unfold (String x a)), orb_assoc. reflexivity.
Qed.

(** A pattern whose first character is nowhere in [s] is not in [s]. *)
Lemma includes_first_char_absent (p : ascii) (pat s : string) :
  occursIn p s = false -> includes s (String p pat) = false.
Proof.
  induction s as [|x s IH]; intros Habsent; [reflexivity|].
  simpl in Habsent. apply orb_false_elim in Habsent as [Hpx Hrest].
  rewrite includes_unfold. simpl. rewrite Hpx, (IH Hrest). reflexivity.
Qed.

(** The rendering of an integer holds digits and a sign only. *)
Lemma occursIn_string_of_uint (c : ascii) (d : Decimal.uint) :
  occursIn c "-0123456789" = false ->
  occursIn c (NilEmpty.string_of_uint d) = false.
Proof.
  intros Hc. simpl in Hc.
  repeat (apply orb_false_elim in Hc as [? Hc]).
  induction d as [|d IH|d IH|d IH|d IH|d IH|d IH|d IH|d IH|d IH|d IH]; simpl;
    [reflexivity | rewrite IH, orb_false_r; assumption ..].
Qed.

Lemma occursIn_showZ (c : ascii) (z : Z) :
  occursIn c "-0123456789" = false -> occursIn c (showZ z) = false.
Proof.
  intros Hc. pose proof (occursIn_string_of_uint c) as Hdigits.
  assert (Hnz : forall d, occursIn c (NilZero.string_of_uint d) = false).
  { intros d. destruct d; try apply (Hdigits _ Hc).
    simpl in Hc |- *. repeat (apply orb_false_elim in Hc as [? Hc]).
    rewrite orb_false_r. assumption. }
  unfold showZ, NilZero.string_of_int. destruct (Z.to_int z) as [d|d].
  - apply Hnz.
  - simpl. rewrite Hnz, orb_false_r.
    simpl in Hc. apply orb_false_elim in Hc as [Hminus _]. exact Hminus.
Qed.

End IncludesFacts.

(** ** The retry loop of [geocodeCity] *)

Module GeocodeFacts.
Import JS Geocode IncludesFacts.

Lemma cityNotFound_isTerminal (city : string) (country : option string) :
  isTerminal (new_Error (cityNotFoundMessage city country)) = true.
Proof.
  unfold isTerminal, new_Error, messageOf, cityNotFoundMessage.
  change ("City not found: " +:+ ?x) with ("City not found" +:+ (": " +:+ x)).
  rewrite includes_append_l. reflexivity.
Qed.

Lemma rateLimit_isTerminal : isTerminal (new_Error rateLimitMessage) = true.
Proof. vm_compute. reflexivity. Qed.

Lemma invalidJson_not_terminal : isTerminal (new_Error invalidJsonMessage) = false.
Proof. vm_compute. reflexivity. Qed.

(** Around the status text, the generic 4xx message holds nothing a
    marker could match: it is found in the message exactly when it is
    found in the status text. *)
Lemma includes_apiErrorMessage (response : Response) (marker : string) :
  marker = "City not found" \/ marker = "rate limit" ->
  includes (apiErrorMessage response) marker = includes (statusText response) marker.
Proof.
  intros [-> | ->]; unfold apiErrorMessage;
    change ("Geocoding API error (" +:+ ?x) with ("Geocoding API error " +:+ String "(" x);
    change ("): " +:+ ?x) with (String ")" (String ":" (String " " x)));
    rewrite !includes_app_foreign by reflexivity;
    rewrite (includes_first_char_absent _ _ (showZ _)) by (apply occursIn_showZ; reflexivity);
    rewrite (includes_unfold (String ":" _)), (includes_unfold (String " " _));
    reflexivity.
Qed.

(** The same for the 5xx message. *)
Lemma includes_serverErrorMessage (response : Response) (marker : string) :
  marker = "City not found" \/ marker = "rate limit" ->
  includes (serverErrorMessage response) marker = includes (statusText response) marker.
Proof.
  intros [-> | ->]; unfold serverErrorMessage;
    change ("Geocoding API server error (" +:+ ?x)
      with ("Geocoding API server error " +:+ String "(" x);
    change ("): " +:+ ?x) with (String ")" (String ":" (String " " x)));
    change (statusText response +:+ ". The service may be temporarily down.")
      with (statusText response +:+ String "." " The service may be temporarily down.");
    rewrite !includes_app_foreign by reflexivity;
    rewrite (includes_first_char_absent _ _ (showZ _)) by (apply occursIn_showZ; reflexivity);
    rewrite (includes_unfold (String ":" _)), (includes_unfold (String " " _));
    rewrite includes_app_foreign by reflexivity;
    match goal with
    | |- context [includes " The service may be temporarily down." ?m] =>
      replace (includes " The service may be temporarily down." m) with false
        by (vm_compute; reflexivity)
    end;
    rewrite orb_false_r; reflexivity.
Qed.

Lemma isTerminal_apiErrorMessage (response : Response) :
  isTerminal (new_Error (apiErrorMessage response))
  = includes (statusText response) "City not found"
    || includes (statusText response) "rate limit".
Proof.
  unfold isTerminal, new_Error, messageOf.
  rewrite !includes_apiErrorMessage by auto. reflexivity.
Qed.

Lemma isTerminal_serverErrorMessage (response : Response) :
  isTerminal (new_Error (serverErrorMessage response))
  = includes (statusText response) "City not found"
    || includes (statusText response) "rate limit".
Proof.
  unfold isTerminal, new_Error, messageOf.
  rewrite !includes_serverErrorMessage by auto. reflexivity.
Qed.

Lemma withPrefix_nil (run : option Run) : withPrefix [] run = run.
Proof. destruct run as [[trace result]|]; reflexivity. Qed.

Lemma withPrefix_app (pre1 pre2 : list Event) (run : option Run) :
  withPrefix pre1 (withPrefix pre2 run) = withPrefix (pre1 ++ pre2) run.
Proof.
  destruct run as [[trace result]|]; simpl; [|reflexivity].
  rewrite app_assoc. reflexivity.
Qed.

Lemma retried_S (attempt k : nat) :
  retried attempt (S k) =
  EvFetch attempt :: EvWait (backoffMs attempt) :: retried (S attempt) k.
Proof. reflexivity. Qed.

Lemma attemptsMade_retried (attempt k : nat) : attemptsMade (retried attempt k) = k.
Proof.
  revert attempt. induction k as [|k IH]; intros attempt; [reflexivity|].
  rewrite retried_S. unfold attemptsMade in *. simpl. rewrite IH. reflexivity.
Qed.

Lemma waits_retried (attempt k : nat) :
  waits (retried attempt k) = map backoffMs (seq attempt k).
Proof.
  revert attempt. induction k as [|k IH]; intros attempt; [reflexivity|].
  rewrite retried_S. unfold waits in *. simpl. rewrite IH. reflexivity.
Qed.

Lemma attemptsMade_app (t1 t2 : list Event) :
  attemptsMade (t1 ++ t2) = (attemptsMade t1 + attemptsMade t2)%nat.
Proof. unfold attemptsMade. rewrite List.filter_app, length_app. reflexivity. Qed.

Lemma waits_app (t1 t2 : list Event) : waits (t1 ++ t2) = waits t1 ++ waits t2.
Proof. unfold waits. apply omap_app. Qed.

Section Loop.
Variables (env : Env) (city : string) (country : option string).
Variables (maxRetries timeoutMs : Z).

Local Abbreviation loop := (attemptLoop env city country maxRetries timeoutMs).
Local Abbreviation outcome := (fetch env (geoUrl env city country)).
Local Abbreviation retryable a := (retryableFailure city country (outcome a) = true).

(** Inside the loop [lastError] is written before it is read. *)
Lemma loop_lastError_dead (fuel attempt : nat) (le le' : option Thrown) :
  Z.of_nat attempt < maxRetries ->
  loop fuel attempt le = loop fuel attempt le'.
Proof.
  intros Hlt. destruct fuel as [|fuel]; simpl; [reflexivity|].
  apply Z.ltb_lt in Hlt. rewrite Hlt. reflexivity.
Qed.

Lemma loop_total (fuel attempt : nat) (le : option Thrown) :
  (Z.to_nat maxRetries - attempt < fuel)%nat ->
  exists run, loop fuel attempt le = Some run.
Proof.
  revert attempt le. induction fuel as [|fuel IH]; intros attempt le Hfuel; [lia|].
  simpl. destruct (Z.ltb_spec (Z.of_nat attempt) maxRetries) as [Hlt|Hge]; [|eauto].
  destruct (attemptBody _ _ _) as [location|error]; [eauto|].
  destruct (isTerminal _); [eauto|].
  destruct (Z.ltb_spec (Z.of_nat attempt) (maxRetries - 1)) as [Hlt'|Hge']; [|eauto].
  destruct (IH (S attempt) (Some (relabel timeoutMs error))) as [[trace result] Hrun]; [lia|].
  rewrite Hrun. eauto.
Qed.

Lemma loop_step_success (fuel attempt : nat) (le : option Thrown) (location : Location) :
  Z.of_nat attempt < maxRetries ->
  attemptBody city country (outcome attempt) = Normal location ->
  loop (S fuel) attempt le = Some ([EvFetch attempt], Normal location).
Proof.
  intros Hlt Hbody. apply Z.ltb_lt in Hlt. simpl. rewrite Hlt, Hbody. reflexivity.
Qed.

Lemma loop_step_terminal (fuel attempt : nat) (le : option Thrown) (error : Thrown) :
  Z.of_nat attempt < maxRetries ->
  attemptBody city country (outcome attempt) = Throw error ->
  isTerminal (asError error) = true ->
  loop (S fuel) attempt le = Some ([EvFetch attempt], Throw (asError error)).
Proof.
  intros Hlt Hbody Hterm. apply Z.ltb_lt in Hlt.
  simpl. rewrite Hlt, Hbody, Hterm. reflexivity.
Qed.

Lemma loop_step_retry (fuel attempt : nat) (le : option Thrown) :
  Z.of_nat attempt < maxRetries - 1 ->
  retryable attempt ->
  loop (S fuel) attempt le =
  withPrefix [EvFetch attempt; EvWait (backoffMs attempt)]
             (loop fuel (S attempt)
                   (Some (errorOf city country timeoutMs (outcome attempt)))).
Proof.
  intros Hlt Hretry. unfold retryableFailure, errorOf in *.
  assert (Hlt' : (Z.of_nat attempt <? maxRetries) = true) by (apply Z.ltb_lt; lia).
  apply Z.ltb_lt in Hlt. simpl. rewrite Hlt'.
  destruct (attemptBody _ _ _) as [location|error]; [discriminate|].
  apply negb_true_iff in Hretry. rewrite Hretry, Hlt. reflexivity.
Qed.

Lemma loop_step_last (fuel attempt : nat) (le : option Thrown) :
  Z.of_nat attempt < maxRetries ->
  ~ Z.of_nat attempt < maxRetries - 1 ->
  retryable attempt ->
  loop (S fuel) attempt le =
  Some ([EvFetch attempt], Throw (errorOf city country timeoutMs (outcome attempt))).
Proof.
  intros Hlt Hlast Hretry. unfold retryableFailure, errorOf in *.
  apply Z.ltb_lt in Hlt. apply Z.ltb_nlt in Hlast. simpl. rewrite Hlt.
  destruct (attemptBody _ _ _) as [location|error]; [discriminate|].
  apply negb_true_iff in Hretry. rewrite Hretry, Hlast. reflexivity.
Qed.

(** An iteration that runs starts by issuing its request. *)
Lemma loop_head (fuel attempt : nat) (le : option Thrown) :
  Z.of_nat attempt < maxRetries ->
  (Z.to_nat maxRetries - attempt < fuel)%nat ->
  exists rest result, loop fuel attempt le = Some (EvFetch attempt :: rest, result).
Proof.
  intros Hlt Hfuel. destruct fuel as [|fuel]; [lia|].
  simpl. apply Z.ltb_lt in Hlt. rewrite Hlt.
  destruct (attemptBody _ _ _) as [location|error]; [eauto|].
  destruct (isTerminal _); [eauto|].
  destruct (Z.ltb_spec (Z.of_nat attempt) (maxRetries - 1)) as [Hlt'|Hge']; [|eauto].
  destruct (loop_total fuel (S attempt) (Some (relabel timeoutMs error)))
    as [[trace result] Hrun]; [lia|].
  rewrite Hrun. eauto.
Qed.

(** [k] retryable failures in a row, with budget left after them. *)
Lemma loop_retried (k fuel attempt : nat) (le : option Thrown) :
  Z.of_nat (attempt + k) < maxRetries ->
  (forall j, (attempt <= j < attempt + k)%nat -> retryable j) ->
  loop (k + fuel) attempt le =
  withPrefix (retried attempt k) (loop fuel (attempt + k) le).
Proof.
  revert attempt le. induction k as [|k IH]; intros attempt le Hlt Hall.
  - rewrite Nat.add_0_r. simpl. symmetry. apply withPrefix_nil.
  - change (S k + fuel)%nat with (S (k + fuel)).
    rewrite loop_step_retry by (try apply Hall; lia).
    rewrite IH by (try (intros j Hj; apply Hall); lia).
    rewrite withPrefix_app.
    change ([EvFetch attempt; EvWait (backoffMs attempt)] ++ retried (S attempt) k)
      with (retried attempt (S k)).
    replace (S attempt + k)%nat with (attempt + S k)%nat by lia.
    f_equal. apply loop_lastError_dead. exact Hlt.
Qed.

(** The call, up to attempt [k], when all attempts before [k] failed
    and were retried. *)
Lemma geocodeCity_upto (k : nat) :
  Z.of_nat k < maxRetries ->
  (forall j, (j < k)%nat -> retryable j) ->
  geocodeCity env city country maxRetries timeoutMs =
  withPrefix (retried 0 k)
             (loop (S (Z.to_nat maxRetries - k)) k None).
Proof.
  intros Hlt Hall. unfold geocodeCity.
  replace (S (Z.to_nat maxRetries)) with (k + S (Z.to_nat maxRetries - k))%nat by lia.
  rewrite loop_retried; [reflexivity | simpl; lia | intros j Hj; apply Hall; lia].
Qed.

Lemma geocodeCity_terminal_at (k : nat) (error : Thrown) :
  Z.of_nat k < maxRetries ->
  (forall j, (j < k)%nat -> retryable j) ->
  attemptBody city country (outcome k) = Throw error ->
  isTerminal (asError error) = true ->
  geocodeCity env city country maxRetries timeoutMs =
  Some (retried 0 k ++ [EvFetch k], Throw (asError error)).
Proof.
  intros Hlt Hall Hbody Hterm. rewrite (geocodeCity_upto k Hlt Hall).
  rewrite (loop_step_terminal _ _ _ error) by assumption. reflexivity.
Qed.

Lemma geocodeCity_success_at (k : nat) (location : Location) :
  Z.of_nat k < maxRetries ->
  (forall j, (j < k)%nat -> retryable j) ->
  attemptBody city country (outcome k) = Normal location ->
  geocodeCity env city country maxRetries timeoutMs =
  Some (retried 0 k ++ [EvFetch k], Normal location).
Proof.
  intros Hlt Hall Hbody. rewrite (geocodeCity_upto k Hlt Hall).
  rewrite (loop_step_success _ _ _ location) by assumption. reflexivity.
Qed.

Lemma geocodeCity_retried_at (k : nat) :
  Z.of_nat k < maxRetries - 1 ->
  (forall j, (j < k)%nat -> retryable j) ->
  retryable k ->
  exists rest result,
    geocodeCity env city country maxRetries timeoutMs =
    Some (retried 0 k ++ EvFetch k :: EvWait (backoffMs k) :: EvFetch (S k) :: rest,
          result).
Proof.
  intros Hlt Hall Hk. rewrite (geocodeCity_upto k) by (assumption || lia).
  rewrite loop_step_retry by assumption.
  destruct (loop_head (Z.to_nat maxRetries - k) (S k)
              (Some (errorOf city country timeoutMs (outcome k))))
    as (rest & result & Hrun); [lia | lia |].
  rewrite Hrun. simpl. eauto.
Qed.

Lemma geocodeCity_exhausted_at (k : nat) :
  Z.of_nat k = maxRetries - 1 ->
  (forall j, (j < k)%nat -> retryable j) ->
  retryable k ->
  geocodeCity env city country maxRetries timeoutMs =
  Some (retried 0 k ++ [EvFetch k],
        Throw (errorOf city country timeoutMs (outcome k))).
Proof.
  intros Hlast Hall Hk. rewrite (geocodeCity_upto k) by (assumption || lia).
  rewrite loop_step_last by (assumption || lia). reflexivity.
Qed.

(** The loop always comes to an end within the fuel [geocodeCity]
    gives it. *)
Lemma geocodeCity_total :
  exists run, geocodeCity env city country maxRetries timeoutMs = Some run.
Proof. apply loop_total. lia. Qed.

End Loop.

End GeocodeFacts.

(** ** Failure classification of [geocodeCity] *)

Module GeocodeSpec.
Import JS Geocode GeocodeFacts Samples.

(** What the [try] block makes of each kind of response. *)

Lemma attemptBody_client_error city country (response : Response) :
  400 <= status response <= 499 ->
  status response <> 429 ->
  attemptBody city country (Responded response)
  = Throw (new_Error (apiErrorMessage response)).
Proof.
  intros Hrange Hne. unfold attemptBody, ok.
  replace (status response <=? 299) with false by (symmetry; apply Z.leb_gt; lia).
  rewrite andb_false_r. simpl.
  replace (500 <=? status response) with false by (symmetry; apply Z.leb_gt; lia).
  replace (status response =? 429) with false by (symmetry; apply Z.eqb_neq; lia).
  reflexivity.
Qed.

Lemma attemptBody_rate_limited city country (response : Response) :
  status response = 429 ->
  attemptBody city country (Responded response) = Throw (new_Error rateLimitMessage).
Proof. intros Hst. unfold attemptBody, ok. rewrite Hst. reflexivity. Qed.

Lemma attemptBody_invalid_json city country (response : Response) :
  ok response = true ->
  json response = None ->
  attemptBody city country (Responded response) = Throw (new_Error invalidJsonMessage).
Proof. intros Hok Hjson. unfold attemptBody. rewrite Hok, Hjson. reflexivity. Qed.

Lemma attemptBody_no_results city country (response : Response) (data : GeoData) :
  ok response = true ->
  json response = Some (JsonObject data) ->
  results data = None \/ results data = Some [] ->
  attemptBody city country (Responded response)
  = Throw (new_Error (cityNotFoundMessage city country)).
Proof.
  intros Hok Hjson Hres. unfold attemptBody. rewrite Hok, Hjson. simpl.
  destruct Hres as [-> | ->]; reflexivity.
Qed.

Lemma retryable_of_throw city country timeoutMs outcome (msg : string) :
  attemptBody city country outcome = Throw (new_Error msg) ->
  isTerminal (new_Error msg) = false ->
  retryableFailure city country outcome = true
  /\ errorOf city country timeoutMs outcome = new_Error msg.
Proof.
  intros Hbody Hterm. unfold retryableFailure, errorOf. rewrite Hbody. simpl.
  rewrite Hterm. split; reflexivity.
Qed.

(** Runs with the default budget of 3 attempts and 10 s timeout. *)

Example run_always_503 :
  geocodeCity_default (always unavailable503) "Manila" None
  = Some ([EvFetch 0; EvWait 1000; EvFetch 1; EvWait 2000; EvFetch 2],
          Throw (new_Error
                   "Geocoding API server error (503): Service Unavailable. The service may be temporarily down.")).
Proof. reflexivity. Qed.

Example run_always_timing_out :
  geocodeCity_default
    (network (fun _ => Rejected (ErrorObject "AbortError" "This operation was aborted")))
    "Manila" None
  = Some ([EvFetch 0; EvWait 1000; EvFetch 1; EvWait 2000; EvFetch 2],
          Throw (new_Error
                   "Geocoding API request timed out after 10000ms. The service may be slow or down.")).
Proof. reflexivity. Qed.

Example run_found_at_once :
  geocodeCity_default (always found) "Manila" (Some "PH")
  = Some ([EvFetch 0], Normal manilaLocation).
Proof. reflexivity. Qed.

(** A server that words its 503 with a marker is not asked again. *)
Example run_503_worded_as_rate_limit :
  geocodeCity_default
    (always {| status := 503; statusText := "rate limit"; json := None |}) "Manila" None
  = Some ([EvFetch 0],
          Throw (new_Error
                   "Geocoding API server error (503): rate limit. The service may be temporarily down.")).
Proof. reflexivity. Qed.

(** With no budget no request is made. *)
Example run_without_budget :
  geocodeCity (always found) "Manila" None 0 10000
  = Some ([], Throw (new_Error exhaustedMessage)).
Proof. reflexivity. Qed.

(** A 5xx response is retried unless its status text carries a marker;
    the error it leaves is the server-error message. *)
Lemma server_error_retryable city country timeoutMs (response : Response) :
  500 <= status response ->
  includes (statusText response) "City not found" = false ->
  includes (statusText response) "rate limit" = false ->
  retryableFailure city country (Responded response) = true
  /\ errorOf city country timeoutMs (Responded response)
     = new_Error (serverErrorMessage response).
Proof.
  intros Hst HnoCity HnoRate. apply retryable_of_throw.
  - unfold attemptBody, ok.
    replace (status response <=? 299) with false by (symmetry; apply Z.leb_gt; lia).
    rewrite andb_false_r. simpl.
    replace (500 <=? status response) with true by (symmetry; apply Z.leb_le; lia).
    reflexivity.
  - rewrite isTerminal_serverErrorMessage, HnoCity, HnoRate. reflexivity.
Qed.

(** A request aborted by the timeout is retried, and the error it leaves
    is the timeout message. *)
Lemma timeout_retryable city country timeoutMs (msg : string) :
  isTerminal (ErrorObject "AbortError" msg) = false ->
  retryableFailure city country (Rejected (ErrorObject "AbortError" msg)) = true
  /\ errorOf city country timeoutMs (Rejected (ErrorObject "AbortError" msg))
     = new_Error (timeoutMessage timeoutMs).
Proof.
  intros Hterm. unfold retryableFailure, errorOf. simpl. rewrite Hterm.
  split; reflexivity.
Qed.

(** C3.  When every attempt fails with a failure the loop retries (it
    throws, and the message of what it throws holds neither "City not
    found" nor "rate limit"), [geocodeCity] issues exactly [maxRetries]
    requests, sleeps [2^attempt * 1000] ms after each attempt but the
    last, and throws the error of the last attempt: that very error
    object, except that a thrown value that is no [Error] comes wrapped
    in one, and an [AbortError] comes as the timeout error.  With no
    attempt at all it throws the fallback error. *)
Theorem geocodeCity_exhausts_budget
    (env : Env) (city : string) (country : option string) (maxRetries timeoutMs : Z) :
  0 <= maxRetries ->
  (forall j, Z.of_nat j < maxRetries ->
     exists error,
       attemptBody city country (fetch env (geoUrl env city country) j) = Throw error
       /\ includes (messageOf error) "City not found" = false
       /\ includes (messageOf error) "rate limit" = false) ->
  exists trace thrown,
    geocodeCity env city country maxRetries timeoutMs = Some (trace, Throw thrown)
    /\ Z.of_nat (attemptsMade trace) = maxRetries
    /\ waits trace
       = map (fun attempt => 2 ^ Z.of_nat attempt * 1000) (seq 0 (Z.to_nat maxRetries - 1))
    /\ (maxRetries = 0 ->
        trace = []
        /\ thrown = ErrorObject "Error" "Geocoding failed after all retry attempts")
    /\ (forall last, Z.of_nat last = maxRetries - 1 ->
        trace
        = flat_map (fun attempt => [EvFetch attempt; EvWait (2 ^ Z.of_nat attempt * 1000)])
                   (seq 0 last)
          ++ [EvFetch last]
        /\ exists error,
             attemptBody city country (fetch env (geoUrl env city country) last)
             = Throw error
             /\ thrown
                = match error with
                  | ErrorObject name message =>
                    if String.eqb name "AbortError"
                    then ErrorObject "Error"
                           ("Geocoding API request timed out after " +:+ showZ timeoutMs
                              +:+ "ms. The service may be slow or down.")
                    else ErrorObject name message
                  | NonError thrownValue => ErrorObject "Error" thrownValue
                  end).
Proof.
  intros Hnonneg Hall.
  assert (Hretry : forall j, Z.of_nat j < maxRetries ->
            retryableFailure city country (fetch env (geoUrl env city country) j) = true).
  { intros j Hj. destruct (Hall j Hj) as (error & Hbody & HnoCity & HnoRate).
    unfold retryableFailure. rewrite Hbody. unfold isTerminal.
    replace (messageOf (asError error)) with (messageOf error) by (destruct error; reflexivity).
    rewrite HnoCity, HnoRate. reflexivity. }
  destruct (Z.to_nat maxRetries) as [|last] eqn:Hn.
  - assert (maxRetries = 0) by lia. subst maxRetries.
    exists [], (new_Error exhaustedMessage).
    split; [reflexivity|]. split; [reflexivity|]. split; [reflexivity|].
    split; [intros _; split; reflexivity|].
    intros last Hlast. lia.
  - destruct (Hall last ltac:(lia)) as (error & Hbody & HnoCity & HnoRate).
    exists (retried 0 last ++ [EvFetch last]),
           (errorOf city country timeoutMs (fetch env (geoUrl env city country) last)).
    split; [|split; [|split; [|split]]].
    + apply geocodeCity_exhausted_at; [lia | intros j Hj; apply Hretry; lia | apply Hretry; lia].
    + rewrite attemptsMade_app, attemptsMade_retried. unfold attemptsMade. simpl. lia.
    + rewrite waits_app, waits_retried. simpl.
      rewrite app_nil_r, Nat.sub_0_r. reflexivity.
    + intros Hzero. lia.
    + intros last' Hlast'. assert (last' = last) by lia. subst last'.
      split; [reflexivity|].
      exists error. split; [exact Hbody|].
      unfold errorOf. rewrite Hbody. unfold isTerminal.
      replace (messageOf (asError error)) with (messageOf error)
        by (destruct error; reflexivity).
      rewrite HnoCity, HnoRate. simpl.
      unfold relabel, isAbortError. destruct error as [name message|thrownValue].
      * destruct (String.eqb name "AbortError"); reflexivity.
      * reflexivity.
Qed.

Lemma geocodeCity_exhausts_budget_witness :
  geocodeCity (always unavailable503) "Manila" None 3 10000
  = Some ([EvFetch 0; EvWait 1000; EvFetch 1; EvWait 2000; EvFetch 2],
          Throw (ErrorObject "Error"
                   "Geocoding API server error (503): Service Unavailable. The service may be temporarily down.")).
Proof.
  destruct (geocodeCity_exhausts_budget (always unavailable503) "Manila" None 3 10000)
    as (trace & thrown & Hrun & _ & _ & _ & Hlast).
  - lia.
  - intros j _.
    exists (ErrorObject "Error"
              "Geocoding API server error (503): Service Unavailable. The service may be temporarily down.").
    split; [reflexivity|]. split; vm_compute; reflexivity.
  - destruct (Hlast 2%nat) as (Htrace & error & Hbody & Hthrown); [reflexivity|].
    injection Hbody as Herror. subst error.
    rewrite Hrun, Htrace, Hthrown. reflexivity.
Defined.

(** C4.  A 429 response ends the call on the attempt that receives it:
    the rate-limit error is thrown at once, with no sleep and no further
    request, whatever budget remains.  Received on the first attempt,
    the call makes exactly one request. *)
Theorem geocodeCity_rate_limit_terminal
    (env : Env) (city : string) (country : option string) (maxRetries timeoutMs : Z)
    (k : nat) (response : Response) :
  Z.of_nat k < maxRetries ->
  (forall j, (j < k)%nat ->
             retryableFailure city country (fetch env (geoUrl env city country) j) = true) ->
  fetch env (geoUrl env city country) k = Responded response ->
  status response = 429 ->
  geocodeCity env city country maxRetries timeoutMs
  = Some (retried 0 k ++ [EvFetch k], Throw (new_Error rateLimitMessage))
  /\ (k = 0%nat ->
      geocodeCity env city country maxRetries timeoutMs
      = Some ([EvFetch 0], Throw (new_Error rateLimitMessage))).
Proof.
  intros Hlt Hall Hfetch Hst.
  assert (Hrun : geocodeCity env city country maxRetries timeoutMs
                 = Some (retried 0 k ++ [EvFetch k], Throw (new_Error rateLimitMessage))).
  { apply (geocodeCity_terminal_at env city country maxRetries timeoutMs k
             (new_Error rateLimitMessage)); try assumption.
    - rewrite Hfetch. apply attemptBody_rate_limited, Hst.
    - apply rateLimit_isTerminal. }
  split; [exact Hrun|]. intros ->. exact Hrun.
Qed.

Lemma geocodeCity_rate_limit_terminal_witness :
  geocodeCity (always tooMany429) "Manila" None 3 10000
  = Some ([EvFetch 0], Throw (new_Error rateLimitMessage)).
Proof.
  apply (geocodeCity_rate_limit_terminal
           (always tooMany429) "Manila" None 3 10000 0 tooMany429).
  - lia.
  - intros j Hj. lia.
  - reflexivity.
  - reflexivity.
  - reflexivity.
Defined.


(** X31.  A successful response whose body is a JSON object with
    [results] missing or empty ends the call on the attempt that receives
    it with the "City not found" error: no sleep, no further request. *)
Theorem geocodeCity_no_results_terminal
    (env : Env) (city : string) (country : option string) (maxRetries timeoutMs : Z)
    (k : nat) (response : Response) (data : GeoData) :
  Z.of_nat k < maxRetries ->
  (forall j, (j < k)%nat ->
             retryableFailure city country (fetch env (geoUrl env city country) j) = true) ->
  fetch env (geoUrl env city country) k = Responded response ->
  status response = 200 ->
  json response = Some (JsonObject data) ->
  results data = None \/ results data = Some [] ->
  geocodeCity env city country maxRetries timeoutMs
  = Some (retried 0 k ++ [EvFetch k],
          Throw (new_Error (cityNotFoundMessage city country)))
  /\ includes (cityNotFoundMessage city country) "City not found" = true.
Proof.
  intros Hlt Hall Hfetch Hst Hjson Hres. split.
  - apply (geocodeCity_terminal_at env city country maxRetries timeoutMs k
             (new_Error (cityNotFoundMessage city country))); try assumption.
    + rewrite Hfetch. apply (attemptBody_no_results _ _ _ data); try assumption.
      unfold ok. rewrite Hst. reflexivity.
    + apply cityNotFound_isTerminal.
  - unfold cityNotFoundMessage.
    change ("City not found: " +:+ ?x) with ("City not found" +:+ (": " +:+ x)).
    apply IncludesFacts.includes_append_l.
Qed.

Lemma geocodeCity_no_results_terminal_witness :
  geocodeCity (always noMatch) "Atlantis" (Some "XX") 3 10000
  = Some ([EvFetch 0],
          Throw (new_Error (cityNotFoundMessage "Atlantis" (Some "XX"))))
  /\ geocodeCity (always noResultsKey) "Atlantis" None 3 10000
     = Some ([EvFetch 0], Throw (new_Error (cityNotFoundMessage "Atlantis" None))).
Proof.
  split.
  - apply (geocodeCity_no_results_terminal
             (always noMatch) "Atlantis" (Some "XX") 3 10000 0 noMatch
             {| results := Some [] |}).
    + lia.
    + intros j Hj. lia.
    + reflexivity.
    + reflexivity.
    + reflexivity.
    + right. reflexivity.
  - apply (geocodeCity_no_results_terminal
             (always noResultsKey) "Atlantis" None 3 10000 0 noResultsKey
             {| results := None |}).
    + lia.
    + intros j Hj. lia.
    + reflexivity.
    + reflexivity.
    + reflexivity.
    + left. reflexivity.
Defined.

(** An attempt that throws [new Error(msg)] with a message free of both
    markers is retried while budget remains, and its error is thrown only
    from the last attempt. *)
Lemma geocodeCity_unmarked_error_retried
    (env : Env) (city : string) (country : option string) (maxRetries timeoutMs : Z)
    (k : nat) (msg : string) :
  Z.of_nat k < maxRetries ->
  (forall j, (j < k)%nat ->
             retryableFailure city country (fetch env (geoUrl env city country) j) = true) ->
  attemptBody city country (fetch env (geoUrl env city country) k)
  = Throw (new_Error msg) ->
  isTerminal (new_Error msg) = false ->
  (Z.of_nat k < maxRetries - 1 ->
   exists rest result,
     geocodeCity env city country maxRetries timeoutMs
     = Some (retried 0 k
               ++ EvFetch k :: EvWait (2 ^ Z.of_nat k * 1000) :: EvFetch (S k) :: rest,
             result))
  /\ (Z.of_nat k = maxRetries - 1 ->
      geocodeCity env city country maxRetries timeoutMs
      = Some (retried 0 k ++ [EvFetch k], Throw (new_Error msg))).
Proof.
  intros Hlt Hall Hbody Hterm.
  destruct (retryable_of_throw city country timeoutMs _ msg Hbody Hterm) as [Hretry Herr].
  split.
  - intros Hmore. apply geocodeCity_retried_at; assumption.
  - intros Hlast. rewrite <- Herr. apply geocodeCity_exhausted_at; assumption.
Qed.

(** C1, as the code has it.  A 4xx response other than 429 whose status
    text contains neither "City not found" nor "rate limit" is not
    terminal: received with budget left, [geocodeCity] sleeps
    [2^attempt * 1000] ms and issues the next request; its error is
    thrown only when it is received on the last attempt. *)
Theorem geocodeCity_client_error_retried
    (env : Env) (city : string) (country : option string) (maxRetries timeoutMs : Z)
    (k : nat) (response : Response) :
  Z.of_nat k < maxRetries ->
  (forall j, (j < k)%nat ->
             retryableFailure city country (fetch env (geoUrl env city country) j) = true) ->
  fetch env (geoUrl env city country) k = Responded response ->
  400 <= status response <= 499 ->
  status response <> 429 ->
  includes (statusText response) "City not found" = false ->
  includes (statusText response) "rate limit" = false ->
  (Z.of_nat k < maxRetries - 1 ->
   exists rest result,
     geocodeCity env city country maxRetries timeoutMs
     = Some (retried 0 k
               ++ EvFetch k :: EvWait (2 ^ Z.of_nat k * 1000) :: EvFetch (S k) :: rest,
             result))
  /\ (Z.of_nat k = maxRetries - 1 ->
      geocodeCity env city country maxRetries timeoutMs
      = Some (retried 0 k ++ [EvFetch k],
              Throw (new_Error (apiErrorMessage response)))).
Proof.
  intros Hlt Hall Hfetch Hrange Hne HnoCity HnoRate.
  apply geocodeCity_unmarked_error_retried; try assumption.
  - rewrite Hfetch. apply attemptBody_client_error; assumption.
  - rewrite isTerminal_apiErrorMessage, HnoCity, HnoRate. reflexivity.
Qed.

Lemma geocodeCity_client_error_retried_witness :
  (exists rest result,
     geocodeCity (always notFound404) "Manila" None 3 10000
     = Some (EvFetch 0 :: EvWait 1000 :: EvFetch 1 :: rest, result))
  /\ geocodeCity (always notFound404) "Manila" None 1 10000
     = Some ([EvFetch 0], Throw (new_Error (apiErrorMessage notFound404))).
Proof.
  split.
  - apply (geocodeCity_client_error_retried
             (always notFound404) "Manila" None 3 10000 0 notFound404).
    + lia.
    + intros j Hj. lia.
    + reflexivity.
    + simpl. lia.
    + simpl. lia.
    + vm_compute. reflexivity.
    + vm_compute. reflexivity.
    + lia.
  - apply (geocodeCity_client_error_retried
             (always notFound404) "Manila" None 1 10000 0 notFound404).
    + lia.
    + intros j Hj. lia.
    + reflexivity.
    + simpl. lia.
    + simpl. lia.
    + vm_compute. reflexivity.
    + vm_compute. reflexivity.
    + reflexivity.
Defined.

(** A 404 on the first attempt does not end the call: the loop sleeps
    1000 ms, asks again, and here succeeds.  A 4xx status is therefore not
    terminal in the sense of C1. *)
Lemma geocodeCity_404_not_terminal :
  fetch (thenFound notFound404) (geoUrl (thenFound notFound404) "Manila" None) 0%nat
  = Responded notFound404
  /\ status notFound404 = 404
  /\ geocodeCity (thenFound notFound404) "Manila" None 3 10000
     = Some ([EvFetch 0; EvWait 1000; EvFetch 1], Normal manilaLocation)
  /\ (forall error,
        geocodeCity (thenFound notFound404) "Manila" None 3 10000
        <> Some ([EvFetch 0], Throw error)).
Proof.
  repeat split. intros error Hrun. vm_compute in Hrun. discriminate Hrun.
Qed.

(** C2, as the code has it.  A successful response whose body is not
    JSON is not terminal: received with budget left, [geocodeCity] sleeps
    [2^attempt * 1000] ms and issues the next request; the invalid-JSON
    error is thrown only when it is received on the last attempt. *)
Theorem geocodeCity_invalid_json_retried
    (env : Env) (city : string) (country : option string) (maxRetries timeoutMs : Z)
    (k : nat) (response : Response) :
  Z.of_nat k < maxRetries ->
  (forall j, (j < k)%nat ->
             retryableFailure city country (fetch env (geoUrl env city country) j) = true) ->
  fetch env (geoUrl env city country) k = Responded response ->
  ok response = true ->
  json response = None ->
  (Z.of_nat k < maxRetries - 1 ->
   exists rest result,
     geocodeCity env city country maxRetries timeoutMs
     = Some (retried 0 k
               ++ EvFetch k :: EvWait (2 ^ Z.of_nat k * 1000) :: EvFetch (S k) :: rest,
             result))
  /\ (Z.of_nat k = maxRetries - 1 ->
      geocodeCity env city country maxRetries timeoutMs
      = Some (retried 0 k ++ [EvFetch k], Throw (new_Error invalidJsonMessage))).
Proof.
  intros Hlt Hall Hfetch Hok Hjson.
  apply geocodeCity_unmarked_error_retried; try assumption.
  - rewrite Hfetch. apply attemptBody_invalid_json; assumption.
  - apply invalidJson_not_terminal.
Qed.

Lemma geocodeCity_invalid_json_retried_witness :
  (exists rest result,
     geocodeCity (always notJson) "Manila" None 3 10000
     = Some (EvFetch 0 :: EvWait 1000 :: EvFetch 1 :: rest, result))
  /\ geocodeCity (always notJson) "Manila" None 1 10000
     = Some ([EvFetch 0], Throw (new_Error invalidJsonMessage)).
Proof.
  split.
  - apply (geocodeCity_invalid_json_retried
             (always notJson) "Manila" None 3 10000 0 notJson).
    + lia.
    + intros j Hj. lia.
    + reflexivity.
    + reflexivity.
    + reflexivity.
    + lia.
  - apply (geocodeCity_invalid_json_retried
             (always notJson) "Manila" None 1 10000 0 notJson).
    + lia.
    + intros j Hj. lia.
    + reflexivity.
    + reflexivity.
    + reflexivity.
    + reflexivity.
Defined.

(** An unparseable body on the first attempt does not end the call: the
    loop sleeps 1000 ms, asks again, and here succeeds.  Invalid JSON is
    therefore not terminal in the sense of C2. *)
Lemma geocodeCity_invalid_json_not_terminal :
  fetch (thenFound notJson) (geoUrl (thenFound notJson) "Manila" None) 0%nat
  = Responded notJson
  /\ json notJson = None
  /\ geocodeCity (thenFound notJson) "Manila" None 3 10000
     = Some ([EvFetch 0; EvWait 1000; EvFetch 1], Normal manilaLocation)
  /\ (forall error,
        geocodeCity (thenFound notJson) "Manila" None 3 10000
        <> Some ([EvFetch 0], Throw error)).
Proof.
  repeat split. intros error Hrun. vm_compute in Hrun. discriminate Hrun.
Qed.

End GeocodeSpec.

(** ** The connection registry *)

Module RegistryFacts.
Import Registry.

Lemma lookup_remove_eq (id : string) (reg : ConnectionRegistry) :
  connections (remove id reg) !! id = None.
Proof. apply lookup_delete_eq. Qed.

Lemma lookup_remove_ne (id id' : string) (reg : ConnectionRegistry) :
  id ≠ id' -> connections (remove id reg) !! id' = connections reg !! id'.
Proof. intros Hne. simpl. apply lookup_delete_ne, Hne. Qed.

Lemma get_absent (now : Z) (id : string) (reg : ConnectionRegistry) :
  connections reg !! id = None -> get now id reg = (None, reg).
Proof. intros Hnone. unfold get. rewrite Hnone. reflexivity. Qed.

Section Sweep.
Variable now : Z.

Lemma cleanupOver_cons entry entries reg :
  cleanupOver now (entry :: entries) reg
  = cleanupOver now entries (cleanupStep now reg entry).
Proof. reflexivity. Qed.

(** The sweep only ever deletes. *)
Lemma cleanupOver_absent entries reg (id : string) :
  connections reg !! id = None ->
  connections (cleanupOver now entries reg) !! id = None.
Proof.
  revert reg. induction entries as [|[k c] entries IH]; intros reg Hnone; [exact Hnone|].
  rewrite cleanupOver_cons. apply IH. unfold cleanupStep. simpl.
  destruct (timeout <? now - lastActivity c); [|exact Hnone].
  simpl. apply lookup_delete_None. right. exact Hnone.
Qed.

(** An identifier visited with a stale entry is gone afterwards. *)
Lemma cleanupOver_stale entries reg (id : string) (c : SSEConnection) :
  (id, c) ∈ entries ->
  stale now c = true ->
  connections (cleanupOver now entries reg) !! id = None.
Proof.
  revert reg. induction entries as [|entry entries IH]; intros reg Hin Hstale.
  - inversion Hin.
  - rewrite cleanupOver_cons. apply elem_of_cons in Hin as [<- | Hin].
    + apply cleanupOver_absent. unfold cleanupStep. simpl.
      unfold stale in Hstale. rewrite Hstale. apply lookup_remove_eq.
    + apply IH; assumption.
Qed.

(** An identifier never visited with a stale entry is left alone. *)
Lemma cleanupOver_fresh entries reg (id : string) :
  (forall c, (id, c) ∈ entries -> stale now c = false) ->
  connections (cleanupOver now entries reg) !! id = connections reg !! id.
Proof.
  revert reg. induction entries as [|[k c] entries IH]; intros reg Hfresh; [reflexivity|].
  rewrite cleanupOver_cons, IH.
  - unfold cleanupStep. simpl.
    destruct (timeout <? now - lastActivity c) eqn:Hstale; [|reflexivity].
    apply lookup_remove_ne. intros ->.
    specialize (Hfresh c (list_elem_of_here _ _)).
    unfold stale in Hfresh. congruence.
  - intros c' Hin. apply Hfresh. apply list_elem_of_further, Hin.
Qed.

(** The sweep, entry by entry. *)
Lemma cleanupStaleConnections_lookup (reg : ConnectionRegistry) (id : string) :
  connections (cleanupStaleConnections now reg) !! id
  = match connections reg !! id with
    | Some c => if stale now c then None else Some c
    | None => None
    end.
Proof.
  unfold cleanupStaleConnections.
  destruct (connections reg !! id) as [c|] eqn:Hlook.
  - destruct (stale now c) eqn:Hstale.
    + apply (cleanupOver_stale _ _ id c); [|exact Hstale].
      apply elem_of_map_to_list, Hlook.
    + rewrite cleanupOver_fresh; [exact Hlook|].
      intros c' Hin. apply elem_of_map_to_list in Hin.
      rewrite Hlook in Hin. injection Hin as <-. exact Hstale.
  - apply cleanupOver_absent, Hlook.
Qed.

(** The order in which the entries are visited does not matter: a sweep
    over the entries in insertion order, as the [Map] iterator yields
    them, leaves the same map. *)
Lemma cleanupOver_order_irrelevant (reg : ConnectionRegistry)
    (entries : list (string * SSEConnection)) :
  entries ≡ₚ map_to_list (connections reg) ->
  connections (cleanupOver now entries reg)
  = connections (cleanupStaleConnections now reg).
Proof.
  intros Hperm. apply map_eq. intros id.
  rewrite cleanupStaleConnections_lookup.
  destruct (connections reg !! id) as [c|] eqn:Hlook.
  - destruct (stale now c) eqn:Hstale.
    + apply (cleanupOver_stale _ _ id c); [|exact Hstale].
      rewrite Hperm. apply elem_of_map_to_list, Hlook.
    + rewrite cleanupOver_fresh; [exact Hlook|].
      intros c' Hin. rewrite Hperm in Hin. apply elem_of_map_to_list in Hin.
      rewrite Hlook in Hin. injection Hin as <-. exact Hstale.
  - apply cleanupOver_absent, Hlook.
Qed.

End Sweep.

(** C7.  The sweep removes every entry idle for more than 30 minutes and
    keeps, unchanged, every entry within the threshold; looking up a
    removed identifier afterwards reports it absent and leaves the
    registry as it is. *)
Theorem cleanupStaleConnections_removes_exactly_stale
    (now : Z) (reg : ConnectionRegistry) (id : string) (c : SSEConnection) :
  connections reg !! id = Some c ->
  (30 * 60 * 1000 < now - lastActivity c ->
   connections (cleanupStaleConnections now reg) !! id = None
   /\ forall later,
        get later id (cleanupStaleConnections now reg)
        = (None, cleanupStaleConnections now reg))
  /\ (now - lastActivity c <= 30 * 60 * 1000 ->
      connections (cleanupStaleConnections now reg) !! id = Some c).
Proof.
  intros Hlook.
  pose proof (cleanupStaleConnections_lookup now reg id) as Hsweep.
  rewrite Hlook in Hsweep. unfold stale, timeout in Hsweep. split.
  - intros Hidle. apply Z.ltb_lt in Hidle. rewrite Hidle in Hsweep.
    split; [exact Hsweep|]. intros later. apply get_absent, Hsweep.
  - intros Hactive. apply Z.ltb_ge in Hactive. rewrite Hactive in Hsweep. exact Hsweep.
Qed.

(** C8.  Looking an identifier up right after registering it yields the
    entry registered, with its last-activity set to the time of the
    lookup, which is not before the registration time; the registry
    holds that same touched entry. *)
Theorem register_then_get
    (reg : ConnectionRegistry) (id : string) (tr : TransportRef) (sv : ServerRef)
    (registeredAt lookedUpAt : Z) :
  registeredAt <= lookedUpAt ->
  exists c,
    get lookedUpAt id (register registeredAt id tr sv reg)
    = (Some c,
       {| connections := <[ id := c ]> (connections reg);
          cleanupInterval := cleanupInterval reg |})
    /\ connections (get lookedUpAt id (register registeredAt id tr sv reg)).2 !! id
       = Some c
    /\ sessionId c = id /\ transport c = tr /\ server c = sv
    /\ createdAt c = registeredAt
    /\ lastActivity c = lookedUpAt
    /\ registeredAt <= lastActivity c.
Proof.
  intros Hclock.
  exists {| sessionId := id; transport := tr; server := sv;
            createdAt := registeredAt; lastActivity := lookedUpAt |}.
  unfold get, register. simpl. rewrite lookup_insert_eq. simpl.
  rewrite insert_insert_eq, lookup_insert_eq. unfold touch. simpl.
  repeat split. exact Hclock.
Qed.

(** C6, as the code has it.  Registering an identifier that is already
    present succeeds and replaces its entry by a fresh one (both
    timestamps set to now, the new transport and server); the other
    entries and the number of entries are unchanged, so there is still
    one entry per identifier. *)
Theorem register_existing_replaces
    (now : Z) (id : string) (tr : TransportRef) (sv : ServerRef)
    (reg : ConnectionRegistry) (old : SSEConnection) :
  connections reg !! id = Some old ->
  connections (register now id tr sv reg) !! id
  = Some {| sessionId := id; transport := tr; server := sv;
            createdAt := now; lastActivity := now |}
  /\ (forall id', id' ≠ id ->
        connections (register now id tr sv reg) !! id' = connections reg !! id')
  /\ size (register now id tr sv reg) = size reg.
Proof.
  intros Hold. unfold register, size. simpl. split; [|split].
  - apply lookup_insert_eq.
  - intros id' Hne. apply lookup_insert_ne. congruence.
  - apply map_size_insert_Some. rewrite Hold. eauto.
Qed.

Lemma cleanupStaleConnections_removes_exactly_stale_witness :
  (connections (cleanupStaleConnections 1800001 Samples.oneSession) !! "s1" = None
   /\ forall later,
        get later "s1" (cleanupStaleConnections 1800001 Samples.oneSession)
        = (None, cleanupStaleConnections 1800001 Samples.oneSession))
  /\ connections (cleanupStaleConnections 1800000 Samples.oneSession) !! "s1"
     = Some Samples.firstEntry.
Proof.
  split.
  - apply (cleanupStaleConnections_removes_exactly_stale
             1800001 Samples.oneSession "s1" Samples.firstEntry).
    + vm_compute. reflexivity.
    + simpl. lia.
  - apply (cleanupStaleConnections_removes_exactly_stale
             1800000 Samples.oneSession "s1" Samples.firstEntry).
    + vm_compute. reflexivity.
    + simpl. lia.
Defined.

Lemma register_then_get_witness :
  exists c,
    get 1005 "s1" (register 1000 "s1" 1%nat 1%nat create)
    = (Some c,
       {| connections := <[ "s1" := c ]> (connections create);
          cleanupInterval := cleanupInterval create |})
    /\ connections (get 1005 "s1" (register 1000 "s1" 1%nat 1%nat create)).2 !! "s1"
       = Some c
    /\ sessionId c = "s1" /\ transport c = 1%nat /\ server c = 1%nat
    /\ createdAt c = 1000
    /\ lastActivity c = 1005
    /\ 1000 <= lastActivity c.
Proof.
  apply (register_then_get create "s1" 1%nat 1%nat 1000 1005). lia.
Defined.

Lemma register_existing_replaces_witness :
  connections (register 5 "s1" 2%nat 2%nat Samples.oneSession) !! "s1"
  = Some Samples.secondEntry
  /\ (forall id', id' ≠ "s1" ->
        connections (register 5 "s1" 2%nat 2%nat Samples.oneSession) !! id'
        = connections Samples.oneSession !! id')
  /\ size (register 5 "s1" 2%nat 2%nat Samples.oneSession) = size Samples.oneSession.
Proof.
  apply (register_existing_replaces 5 "s1" 2%nat 2%nat Samples.oneSession Samples.firstEntry).
  vm_compute. reflexivity.
Defined.

(** A second [register] of "s1" goes through, and the entry found under
    "s1" afterwards is the new one, not the one that was there: [register]
    does not refuse a duplicate in the sense of C6. *)
Lemma register_existing_overwrites :
  connections Samples.oneSession !! "s1" = Some Samples.firstEntry
  /\ connections (register 5 "s1" 2%nat 2%nat Samples.oneSession) !! "s1"
     = Some Samples.secondEntry
  /\ Samples.secondEntry <> Samples.firstEntry
  /\ connections (register 5 "s1" 2%nat 2%nat Samples.oneSession) !! "s1"
     <> connections Samples.oneSession !! "s1".
Proof.
  assert (H1 : connections Samples.oneSession !! "s1" = Some Samples.firstEntry)
    by apply lookup_insert_eq.
  assert (H2 : connections (register 5 "s1" 2%nat 2%nat Samples.oneSession) !! "s1"
               = Some Samples.secondEntry) by apply lookup_insert_eq.
  repeat split; try assumption.
  - discriminate.
  - rewrite H1, H2. discriminate.
Qed.

End RegistryFacts.

(** ** The tool-call boundary *)

Module ToolsFacts.
Import JS Tools.

Section Boundary.
Context {RawArgs Data : Type}.
Variable env : Callees RawArgs Data.

Lemma callTool_of_throw (request : Request RawArgs) (error : Thrown) :
  dispatch env request = Throw error ->
  callTool env request = Normal (errorResult error).
Proof. intros Hbody. unfold callTool. rewrite Hbody. reflexivity. Qed.

Lemma callTool_of_normal (request : Request RawArgs) (result : CallToolResult) :
  dispatch env request = Normal result ->
  callTool env request = Normal result.
Proof. intros Hbody. unfold callTool. rewrite Hbody. reflexivity. Qed.

(** A name outside the five tools fails every test of the chain. *)
Lemma dispatch_unknown_tool (request : Request RawArgs) :
  params_name request ∉ toolNames ->
  dispatch env request = Throw (new_Error ("Unknown tool: " +:+ params_name request)).
Proof.
  intros Hnot. unfold dispatch.
  repeat match goal with
  | |- context [String.eqb (params_name request) ?tool] =>
    destruct (String.eqb_spec (params_name request) tool) as [Heq|_];
    [ exfalso; apply Hnot; rewrite Heq; unfold toolNames;
      repeat (first [apply list_elem_of_here | apply list_elem_of_further]) | ]
  end.
  reflexivity.
Qed.

Lemma dispatch_schema_rejection (request : Request RawArgs) (error : Thrown) :
  schemaRejects env request error -> dispatch env request = Throw error.
Proof.
  unfold schemaRejects, dispatch.
  intros [[-> ->] | [[-> ->] | [[-> ->] | [[-> ->] | [-> ->]]]]]; reflexivity.
Qed.

Lemma dispatch_upstream_failure (request : Request RawArgs) (error : Thrown) :
  upstreamFails env request error -> dispatch env request = Throw error.
Proof.
  unfold upstreamFails, dispatch.
  intros [[-> (args & -> & Hf)] | [[-> (args & -> & Hf)] | [[-> (args & -> & Hf)]
         | [[-> (args & -> & Hf)] | [-> (args & -> & Hf)]]]]];
    simpl; rewrite Hf; reflexivity.
Qed.

End Boundary.

(** C9.  The handler always completes normally.  Whenever the body of
    its [try] block throws (an unknown tool name, a schema rejecting the
    arguments, a fetch function failing, or anything else), the handler
    returns the structured result whose one content item is the text
    "Error: " followed by the message of the error (for a thrown value
    that is no [Error], by that value as a string), with [isError] set
    to [true]. *)
Theorem callTool_recovers_every_failure
    {RawArgs Data : Type} (env : Callees RawArgs Data) (request : Request RawArgs) :
  (exists result, callTool env request = Normal result)
  /\ (forall error shown,
        (exists name, error = ErrorObject name shown) \/ error = NonError shown ->
        dispatch env request = Throw error
        \/ schemaRejects env request error
        \/ upstreamFails env request error ->
        callTool env request
        = Normal {| content := [ {| type := "text"; text := "Error: " +:+ shown |} ];
                    isError := Some true |})
  /\ (params_name request ∉ toolNames ->
      callTool env request
      = Normal {| content :=
                    [ {| type := "text";
                         text := "Error: Unknown tool: " +:+ params_name request |} ];
                  isError := Some true |}).
Proof.
  split; [|split].
  - unfold callTool. destruct (dispatch env request) as [result|error]; simpl; eauto.
  - intros error shown Hshown Hfails.
    assert (Hthrow : dispatch env request = Throw error).
    { destruct Hfails as [Hbody | [Hrej | Hup]].
      - exact Hbody.
      - apply dispatch_schema_rejection, Hrej.
      - apply dispatch_upstream_failure, Hup. }
    rewrite (callTool_of_throw env request error Hthrow).
    destruct Hshown as [[name ->] | ->]; reflexivity.
  - intros Hnot.
    rewrite (callTool_of_throw env request _ (dispatch_unknown_tool env request Hnot)).
    reflexivity.
Qed.

Lemma callTool_recovers_every_failure_witness :
  callTool Samples.failing (Samples.request "get_weather_forecast")
  = Normal {| content := [ {| type := "text"; text := "Error: Required" |} ];
              isError := Some true |}
  /\ callTool Samples.failing (Samples.request "delete_everything")
     = Normal {| content :=
                   [ {| type := "text"; text := "Error: Unknown tool: delete_everything" |} ];
                 isError := Some true |}.
Proof.
  pose proof (callTool_recovers_every_failure
                Samples.failing (Samples.request "get_weather_forecast")) as Hforecast.
  pose proof (callTool_recovers_every_failure
                Samples.failing (Samples.request "delete_everything")) as Hunknown.
  destruct Hforecast as (_ & Hfails & _).
  destruct Hunknown as (_ & _ & Hname).
  split.
  - apply (Hfails (ErrorObject "ZodError" "Required") "Required").
    + left. exists "ZodError". reflexivity.
    + right. left. right. left. split; reflexivity.
  - apply Hname. apply (bool_decide_unpack _). vm_compute. exact I.
Defined.

End ToolsFacts.

(** ** Growing degree days *)

Module GrowingFacts.
Import Growing.

Local Open Scope Q_scope.




Lemma growingDegreeDays_empty (baseTemp : Q) : growingDegreeDays [] baseTemp = NaN.
Proof. reflexivity. Qed.

Example gdd_cool_day : growingDegreeDays Samples.coolDay 10 = Finite 0.
Proof. reflexivity. Qed.

Example gdd_warm_day : growingDegreeDays Samples.warmDay 10 = Finite (360 # 24).
Proof. reflexivity. Qed.

Example gdd_short_series : growingDegreeDays [12 # 1; 15 # 1] 10 = Finite (7 # 2).
Proof. reflexivity. Qed.

End GrowingFacts.

(** ** Growing degree days in double precision *)

Module GrowingDoubleFacts.
Import GrowingDouble.

Local Open Scope float_scope.

(** Comparisons of a double with zero, read off its decoded value. *)

Lemma zero_decoded : Prim2SF 0 = S754_zero false.
Proof. reflexivity. Qed.

Lemma is_nan_decoded (x : number) : is_nan x = true <-> Prim2SF x = S754_nan.
Proof.
  unfold is_nan. rewrite FloatAxioms.eqb_spec, negb_true_iff.
  destruct (Prim2SF x) as [s|s| |s m e]; unfold SFeqb; simpl;
    try (destruct s); simpl; split; try discriminate; try reflexivity.
  all: rewrite ?Z.compare_refl, ?Pos.compare_refl; simpl;
    rewrite ?Z.compare_refl, ?Pos.compare_refl; discriminate.
Qed.

Lemma not_nan_decoded (x : number) : is_nan x = false <-> Prim2SF x <> S754_nan.
Proof.
  rewrite <- is_nan_decoded. destruct (is_nan x); split; congruence.
Qed.

Lemma positive_facts (x : number) :
  (0 <? x) = true ->
  is_nan x = false /\ (x <? 0) = false /\ (x <=? 0) = false /\ (0 <=? x) = true.
Proof.
  intros Hpos. rewrite FloatAxioms.ltb_spec, zero_decoded in Hpos.
  rewrite not_nan_decoded, FloatAxioms.ltb_spec, !FloatAxioms.leb_spec, zero_decoded.
  destruct (Prim2SF x) as [s|s| |s m e]; try destruct s; try discriminate;
    repeat split; discriminate.
Qed.

Lemma nonpositive_facts (x : number) :
  (x <=? 0) = true -> is_nan x = false /\ (0 <? x) = false.
Proof.
  intros Hle. rewrite FloatAxioms.leb_spec, zero_decoded in Hle.
  rewrite not_nan_decoded, FloatAxioms.ltb_spec, zero_decoded.
  destruct (Prim2SF x) as [s|s| |s m e]; try destruct s; try discriminate;
    split; (discriminate || reflexivity).
Qed.

Lemma nan_facts (x : number) :
  is_nan x = true -> (0 <? x) = false /\ (x <? 0) = false /\ (x <=? 0) = false.
Proof.
  intros Hnan. apply is_nan_decoded in Hnan.
  rewrite !FloatAxioms.ltb_spec, FloatAxioms.leb_spec, zero_decoded, Hnan.
  repeat split.
Qed.

Lemma zero_trichotomy (x : number) :
  (0 <? x) = true \/ (x <=? 0) = true \/ is_nan x = true.
Proof.
  destruct (is_nan x) eqn:Hnan; [auto|].
  apply not_nan_decoded in Hnan.
  rewrite FloatAxioms.ltb_spec, FloatAxioms.leb_spec, zero_decoded.
  destruct (Prim2SF x) as [s|s| |s m e]; try destruct s; try congruence; auto.
Qed.

(** [Math.max(0, x)] by cases on [x]. *)

Lemma Math_max_0_positive (x : number) : (0 <? x) = true -> Math_max 0 x = x.
Proof.
  intros Hpos. destruct (positive_facts x Hpos) as (Hnan & _).
  unfold Math_max. rewrite Hnan, Hpos. reflexivity.
Qed.

Lemma Math_max_0_nonpositive (x : number) : (x <=? 0) = true -> Math_max 0 x = 0.
Proof.
  intros Hle. destruct (nonpositive_facts x Hle) as (Hnan & Hnot).
  unfold Math_max. rewrite Hnan, Hnot. simpl.
  destruct (x <? 0); reflexivity.
Qed.

Lemma Math_max_0_nan (x : number) : is_nan x = true -> Math_max 0 x = nan.
Proof. intros Hnan. unfold Math_max. rewrite Hnan. reflexivity. Qed.

(** The arithmetic of a warm day, and of a day without readings. *)

Example gdd_double_warm_day : growingDegreeDays warmDay 10 = 10.
Proof. reflexivity. Qed.

Example gdd_double_high_base : growingDegreeDays warmDay 25 = 0.
Proof. reflexivity. Qed.

Example gdd_double_no_readings : growingDegreeDays [] 10 = nan.
Proof. reflexivity. Qed.



End GrowingDoubleFacts.

(** ** More on the connection registry *)

Module RegistryMore.
Import Registry RegistryOps RegistryFacts.

Lemma registry_eq (r1 r2 : ConnectionRegistry) :
  connections r1 = connections r2 ->
  cleanupInterval r1 = cleanupInterval r2 ->
  r1 = r2.
Proof. destruct r1, r2. simpl. intros -> ->. reflexivity. Qed.

Lemma cleanupOver_interval now entries reg :
  cleanupInterval (cleanupOver now entries reg) = cleanupInterval reg.
Proof.
  revert reg. induction entries as [|entry entries IH]; intros reg; [reflexivity|].
  rewrite cleanupOver_cons, IH. unfold cleanupStep.
  destruct (timeout <? now - lastActivity entry.2); reflexivity.
Qed.

(** X1.  Removing an identifier that is not registered changes nothing,
    and removing twice is the same as removing once. *)
Theorem remove_absent_unchanged (id : string) (reg : ConnectionRegistry) :
  (connections reg !! id = None -> remove id reg = reg /\ size (remove id reg) = size reg)
  /\ remove id (remove id reg) = remove id reg.
Proof.
  split.
  - intros Hnone.
    assert (Heq : remove id reg = reg).
    { apply registry_eq; [|reflexivity]. simpl. apply delete_id, Hnone. }
    rewrite Heq. split; reflexivity.
  - apply registry_eq; [|reflexivity]. simpl. apply delete_delete_eq.
Qed.

Lemma remove_absent_unchanged_witness :
  remove "ghost" Samples.oneSession = Samples.oneSession
  /\ size (remove "ghost" Samples.oneSession) = size Samples.oneSession.
Proof.
  apply (remove_absent_unchanged "ghost" Samples.oneSession).
  vm_compute. reflexivity.
Defined.

(** X2.  Registering a fresh identifier and then removing it gives back
    the registry as it was; the size goes up by one and down again. *)
Theorem register_then_remove
    (now : Z) (id : string) (tr : TransportRef) (sv : ServerRef)
    (reg : ConnectionRegistry) :
  connections reg !! id = None ->
  remove id (register now id tr sv reg) = reg
  /\ size (register now id tr sv reg) = S (size reg)
  /\ size (remove id (register now id tr sv reg)) = size reg.
Proof.
  intros Hfresh.
  assert (Heq : remove id (register now id tr sv reg) = reg).
  { apply registry_eq; [|reflexivity]. simpl. apply delete_insert_id, Hfresh. }
  split; [exact Heq|]. split.
  - unfold size, register. simpl. apply map_size_insert_None, Hfresh.
  - rewrite Heq. reflexivity.
Qed.

Lemma register_then_remove_witness :
  remove "s2" (register 7 "s2" 2%nat 2%nat Samples.oneSession) = Samples.oneSession
  /\ size (register 7 "s2" 2%nat 2%nat Samples.oneSession) = S (size Samples.oneSession)
  /\ size (remove "s2" (register 7 "s2" 2%nat 2%nat Samples.oneSession))
     = size Samples.oneSession.
Proof.
  apply (register_then_remove 7 "s2" 2%nat 2%nat Samples.oneSession).
  vm_compute. reflexivity.
Defined.

(** X3.  Two sessions registered under distinct identifiers are
    independent: removing the first leaves the second exactly as it was
    registered, and the first is gone. *)
Theorem distinct_sessions_independent
    (t1 t2 : Z) (id1 id2 : string) (tr1 tr2 : TransportRef) (sv1 sv2 : ServerRef)
    (reg : ConnectionRegistry) :
  id1 ≠ id2 ->
  let both := register t2 id2 tr2 sv2 (register t1 id1 tr1 sv1 reg) in
  connections both !! id1
  = Some {| sessionId := id1; transport := tr1; server := sv1;
            createdAt := t1; lastActivity := t1 |}
  /\ connections (remove id1 both) !! id2
     = Some {| sessionId := id2; transport := tr2; server := sv2;
               createdAt := t2; lastActivity := t2 |}
  /\ connections (remove id1 both) !! id1 = None.
Proof.
  intros Hne both. unfold both, register, remove. simpl. repeat split.
  - rewrite lookup_insert_ne by congruence. apply lookup_insert_eq.
  - rewrite lookup_delete_ne by exact Hne. apply lookup_insert_eq.
  - apply lookup_delete_eq.
Qed.

Lemma distinct_sessions_independent_witness :
  connections (register 2 "b" 2%nat 2%nat (register 1 "a" 1%nat 1%nat create)) !! "a"
  = Some {| sessionId := "a"; transport := 1%nat; server := 1%nat;
            createdAt := 1; lastActivity := 1 |}
  /\ connections
       (remove "a" (register 2 "b" 2%nat 2%nat (register 1 "a" 1%nat 1%nat create))) !! "b"
     = Some {| sessionId := "b"; transport := 2%nat; server := 2%nat;
               createdAt := 2; lastActivity := 2 |}
  /\ connections
       (remove "a" (register 2 "b" 2%nat 2%nat (register 1 "a" 1%nat 1%nat create))) !! "a"
     = None.
Proof.
  apply (distinct_sessions_independent 1 2 "a" "b" 1%nat 2%nat 1%nat 2%nat create).
  discriminate.
Defined.

(** X4.  A lookup that finds its identifier changes nothing but the
    last-activity time of that one entry: its other fields, every other
    entry and the number of entries stay as they were.  A lookup that
    misses leaves the registry untouched. *)
Theorem get_touches_only_target (now : Z) (id : string) (reg : ConnectionRegistry) :
  (forall c,
     connections reg !! id = Some c ->
     (get now id reg).1 = Some (touch now c)
     /\ connections (get now id reg).2 !! id = Some (touch now c)
     /\ (forall id', id' ≠ id ->
           connections (get now id reg).2 !! id' = connections reg !! id')
     /\ size (get now id reg).2 = size reg
     /\ sessionId (touch now c) = sessionId c
     /\ transport (touch now c) = transport c
     /\ server (touch now c) = server c
     /\ createdAt (touch now c) = createdAt c)
  /\ (connections reg !! id = None -> get now id reg = (None, reg)).
Proof.
  split.
  - intros c Hlook. unfold get. rewrite Hlook. simpl. repeat split.
    + apply lookup_insert_eq.
    + intros id' Hne. apply lookup_insert_ne. congruence.
    + unfold size. simpl. apply map_size_insert_Some. rewrite Hlook. eauto.
  - apply get_absent.
Qed.

Lemma get_touches_only_target_witness :
  (get 9 "s1" Samples.oneSession).1 = Some (touch 9 Samples.firstEntry)
  /\ size (get 9 "s1" Samples.oneSession).2 = size Samples.oneSession.
Proof.
  destruct (get_touches_only_target 9 "s1" Samples.oneSession) as [Hhit _].
  destruct (Hhit Samples.firstEntry) as (H1 & _ & _ & H4 & _).
  - vm_compute. reflexivity.
  - split; assumption.
Defined.

(** X5.  Refresh on read: an entry looked up at some time survives every
    sweep run no later than 30 minutes after that lookup, however long
    ago it was created or last used before. *)
Theorem touched_session_survives_sweep
    (lookedUpAt sweptAt : Z) (id : string) (reg : ConnectionRegistry) (c : SSEConnection) :
  connections reg !! id = Some c ->
  sweptAt - lookedUpAt <= 30 * 60 * 1000 ->
  connections (cleanupStaleConnections sweptAt (get lookedUpAt id reg).2) !! id
  = Some (touch lookedUpAt c).
Proof.
  intros Hlook Hsoon. rewrite cleanupStaleConnections_lookup.
  unfold get. rewrite Hlook. simpl. rewrite lookup_insert_eq.
  unfold stale, timeout. simpl.
  replace (30 * 60 * 1000 <? sweptAt - lookedUpAt) with false
    by (symmetry; apply Z.ltb_ge; lia).
  reflexivity.
Qed.

Lemma touched_session_survives_sweep_witness :
  connections
    (cleanupStaleConnections 3600000 (get 1800000 "s1" Samples.oneSession).2) !! "s1"
  = Some (touch 1800000 Samples.firstEntry).
Proof.
  apply (touched_session_survives_sweep 1800000 3600000 "s1" Samples.oneSession).
  - vm_compute. reflexivity.
  - lia.
Defined.

(** X6.  A sweep only deletes: what it leaves is part of what was there
    and no larger.  Sweeping again at the same time changes nothing more,
    and a later sweep keeps no entry that an earlier one dropped. *)
Theorem sweep_only_shrinks (now : Z) (reg : ConnectionRegistry) :
  connections (cleanupStaleConnections now reg) ⊆ connections reg
  /\ (size (cleanupStaleConnections now reg) <= size reg)%nat
  /\ cleanupStaleConnections now (cleanupStaleConnections now reg)
     = cleanupStaleConnections now reg
  /\ (forall later, now <= later ->
        connections (cleanupStaleConnections later reg)
        ⊆ connections (cleanupStaleConnections now reg)).
Proof.
  assert (Hsub : connections (cleanupStaleConnections now reg) ⊆ connections reg).
  { apply map_subseteq_spec. intros id c. rewrite cleanupStaleConnections_lookup.
    destruct (connections reg !! id) as [c'|]; [|discriminate].
    destruct (stale now c'); [discriminate | tauto]. }
  split; [exact Hsub|]. split; [|split].
  - unfold size. apply map_subseteq_size, Hsub.
  - apply registry_eq.
    + apply map_eq. intros id. rewrite !cleanupStaleConnections_lookup.
      destruct (connections reg !! id) as [c|]; [|reflexivity].
      destruct (stale now c) eqn:Hstale; [reflexivity|]. rewrite Hstale. reflexivity.
    + unfold cleanupStaleConnections. rewrite !cleanupOver_interval. reflexivity.
  - intros later Hlater. apply map_subseteq_spec. intros id c.
    rewrite !cleanupStaleConnections_lookup.
    destruct (connections reg !! id) as [c'|]; [|discriminate].
    unfold stale. destruct (Z.ltb_spec timeout (later - lastActivity c')); [discriminate|].
    destruct (Z.ltb_spec timeout (now - lastActivity c')); [lia | tauto].
Qed.

Lemma sweep_only_shrinks_witness :
  connections (cleanupStaleConnections 1800005 Samples.oneSession)
  ⊆ connections (cleanupStaleConnections 1800000 Samples.oneSession).
Proof.
  apply (sweep_only_shrinks 1800000 Samples.oneSession). lia.
Defined.

Lemma entryOk_later (t t' : Z) (id : string) (c : SSEConnection) :
  t <= t' -> entryOk t id c -> entryOk t' id c.
Proof. unfold entryOk. intros Hle (Hkey & Horder & Hpast). repeat split; (assumption || lia). Qed.

(** One call keeps the invariant, moving it to the time of the call. *)
Lemma applyOp_keeps_entryOk (t now : Z) (op : Op) (reg : ConnectionRegistry) :
  t <= now ->
  (forall id c, connections reg !! id = Some c -> entryOk t id c) ->
  forall id c, connections (applyOp now op reg) !! id = Some c -> entryOk now id c.
Proof.
  intros Hclock Hinv id c.
  assert (Hold : forall c', connections reg !! id = Some c' -> entryOk now id c').
  { intros c' Hc'. apply (entryOk_later t); [exact Hclock | apply Hinv, Hc']. }
  destruct op as [rid tr sv | gid | rid | |]; simpl.
  - destruct (decide (rid = id)) as [->|Hne].
    + rewrite lookup_insert_eq. intros [= <-]. unfold entryOk. simpl.
      repeat split; (reflexivity || lia).
    + rewrite lookup_insert_ne by exact Hne. apply Hold.
  - unfold get. destruct (connections reg !! gid) as [g|] eqn:Hg; simpl; [|apply Hold].
    destruct (decide (gid = id)) as [->|Hne].
    + rewrite lookup_insert_eq. intros [= <-].
      destruct (Hinv id g Hg) as (Hkey & Horder & Hpast).
      unfold entryOk, touch. simpl. repeat split; (assumption || lia).
    + rewrite lookup_insert_ne by exact Hne. apply Hold.
  - intros Hlook. apply lookup_delete_Some in Hlook as [_ Hlook]. apply Hold, Hlook.
  - rewrite cleanupStaleConnections_lookup.
    destruct (connections reg !! id) as [c'|] eqn:Hc'; [|discriminate].
    destruct (stale now c'); [discriminate|]. intros [= <-]. apply Hold. reflexivity.
  - rewrite lookup_empty. discriminate.
Qed.

(** X7.  Whatever calls are made on a registry, in whatever order, as
    long as the clock does not run backwards: every entry is stored under
    its own session identifier, was created no later than it was last
    active, and was last active no later than the last call. *)
Theorem registry_invariant (t0 : Z) (history : list (Z * Op)) :
  clockMonotone t0 history ->
  forall id c,
    connections (runOps history create) !! id = Some c ->
    sessionId c = id
    /\ createdAt c <= lastActivity c
    /\ lastActivity c <= lastTime t0 history.
Proof.
  intros Hclock.
  assert (Hgen : forall history t reg,
             clockMonotone t history ->
             (forall id c, connections reg !! id = Some c -> entryOk t id c) ->
             forall id c, connections (runOps history reg) !! id = Some c ->
                          entryOk (lastTime t history) id c).
  { clear. induction history as [|[now op] later IH]; intros t reg Hclock Hinv; simpl.
    - exact Hinv.
    - destruct Hclock as [Hle Hlater]. apply IH; [exact Hlater|].
      apply (applyOp_keeps_entryOk t); assumption. }
  intros id c Hlook. apply (Hgen history t0 create Hclock); [|exact Hlook].
  intros id' c'. simpl. rewrite lookup_empty. discriminate.
Qed.

Lemma registry_invariant_witness :
  sessionId (touch 5 Samples.firstEntry) = "s1"
  /\ createdAt (touch 5 Samples.firstEntry) <= lastActivity (touch 5 Samples.firstEntry)
  /\ lastActivity (touch 5 Samples.firstEntry) <= 9.
Proof.
  apply (registry_invariant 0
           [(0, OpRegister "s1" 1%nat 1%nat); (5, OpGet "s1"); (9, OpSweep)]).
  - simpl. lia.
  - vm_compute. reflexivity.
Defined.

End RegistryMore.

(** ** Routing of messages to sessions *)

Module HttpFacts.
Import JS Registry RegistryFacts Http.

Lemma postMessage_after_open
    (openedAt now : Z) (uuid : string) (tr : TransportRef) (sv : ServerRef)
    (bodyIsJson : bool) (reg : ConnectionRegistry) :
  truthy_string uuid = true ->
  connections (postMessage now (Some uuid) bodyIsJson (openSse openedAt uuid tr sv reg)).2
    !! uuid
  = Some {| sessionId := uuid; transport := tr; server := sv;
            createdAt := openedAt; lastActivity := now |}.
Proof.
  intros Hid. unfold postMessage, openSse, get, register. rewrite Hid. simpl.
  rewrite lookup_insert_eq. destruct bodyIsJson; simpl; apply lookup_insert_eq.
Qed.

(** X8.  A message addressed to a session that was opened is handed to
    the transport registered for that session, and counts as activity:
    the session's last-activity time becomes the time of the message. *)
Theorem message_reaches_registered_transport
    (openedAt now : Z) (uuid : string) (tr : TransportRef) (sv : ServerRef)
    (reg : ConnectionRegistry) :
  truthy_string uuid = true ->
  (postMessage now (Some uuid) true (openSse openedAt uuid tr sv reg)).1 = Forwarded tr
  /\ connections (postMessage now (Some uuid) true (openSse openedAt uuid tr sv reg)).2
       !! uuid
     = Some {| sessionId := uuid; transport := tr; server := sv;
               createdAt := openedAt; lastActivity := now |}.
Proof.
  intros Hid. unfold postMessage, openSse, get, register. rewrite Hid. simpl.
  rewrite lookup_insert_eq. simpl. split; [reflexivity|].
  rewrite lookup_insert_eq. reflexivity.
Qed.

Lemma message_reaches_registered_transport_witness :
  (postMessage 50 (Some "s1") true (openSse 10 "s1" 4%nat 5%nat create)).1
  = Forwarded 4%nat.
Proof.
  apply (message_reaches_registered_transport 10 50 "s1" 4%nat 5%nat create).
  reflexivity.
Defined.

(** X9.  A message that names no session, or an empty one, is answered
    400; one that names a session the registry does not hold is answered
    404.  Neither changes the registry. *)
Theorem message_without_session_rejected
    (now : Z) (bodyIsJson : bool) (reg : ConnectionRegistry) :
  postMessage now None bodyIsJson reg = (BadRequest, reg)
  /\ postMessage now (Some EmptyString) bodyIsJson reg = (BadRequest, reg)
  /\ (forall id,
        truthy_string id = true ->
        connections reg !! id = None ->
        postMessage now (Some id) bodyIsJson reg = (SessionNotFound, reg)).
Proof.
  repeat split. intros id Hid Hnone.
  unfold postMessage. rewrite Hid. simpl. rewrite (get_absent _ _ _ Hnone). reflexivity.
Qed.

Lemma message_without_session_rejected_witness :
  postMessage 50 (Some "nobody") true Samples.oneSession
  = (SessionNotFound, Samples.oneSession).
Proof.
  apply (message_without_session_rejected 50 true Samples.oneSession).
  - reflexivity.
  - vm_compute. reflexivity.
Defined.

(** X10.  Once the connection of a session has closed, a message for it
    is answered 404, whatever the registry held. *)
Theorem message_after_close_not_found
    (now : Z) (id : string) (bodyIsJson : bool) (reg : ConnectionRegistry) :
  truthy_string id = true ->
  postMessage now (Some id) bodyIsJson (onClose id reg)
  = (SessionNotFound, onClose id reg).
Proof.
  intros Hid. unfold postMessage. rewrite Hid. simpl.
  rewrite (get_absent now id (onClose id reg)); [reflexivity|].
  apply lookup_remove_eq.
Qed.

Lemma message_after_close_not_found_witness :
  postMessage 50 (Some "s1") true (onClose "s1" Samples.oneSession)
  = (SessionNotFound, onClose "s1" Samples.oneSession).
Proof.
  apply (message_after_close_not_found 50 "s1" true Samples.oneSession). reflexivity.
Defined.

(** X11.  The session is looked up before the body is read: a message
    whose body is not JSON is answered 500, yet it has already refreshed
    the last-activity time of its session. *)
Theorem malformed_message_still_refreshes
    (now : Z) (id : string) (reg : ConnectionRegistry) (c : SSEConnection) :
  truthy_string id = true ->
  connections reg !! id = Some c ->
  (postMessage now (Some id) false reg).1 = InternalError
  /\ connections (postMessage now (Some id) false reg).2 !! id = Some (touch now c).
Proof.
  intros Hid Hlook. unfold postMessage, get. rewrite Hid, Hlook. simpl.
  split; [reflexivity | apply lookup_insert_eq].
Qed.

Lemma malformed_message_still_refreshes_witness :
  (postMessage 50 (Some "s1") false Samples.oneSession).1 = InternalError
  /\ connections (postMessage 50 (Some "s1") false Samples.oneSession).2 !! "s1"
     = Some (touch 50 Samples.firstEntry).
Proof.
  apply (malformed_message_still_refreshes 50 "s1" Samples.oneSession Samples.firstEntry).
  - reflexivity.
  - vm_compute. reflexivity.
Defined.

(** X12.  A session left idle expires: opened, not addressed for more
    than 30 minutes and then swept, it answers 404.  A message within
    the 30 minutes before the sweep keeps it: the next message is still
    forwarded to its transport. *)
Theorem idle_session_expires
    (openedAt sweptAt now : Z) (uuid : string) (tr : TransportRef) (sv : ServerRef)
    (reg : ConnectionRegistry) :
  truthy_string uuid = true ->
  (30 * 60 * 1000 < sweptAt - openedAt ->
   (postMessage now (Some uuid) true
      (cleanupStaleConnections sweptAt (openSse openedAt uuid tr sv reg))).1
   = SessionNotFound)
  /\ (forall messageAt,
        sweptAt - messageAt <= 30 * 60 * 1000 ->
        (postMessage now (Some uuid) true
           (cleanupStaleConnections sweptAt
              (postMessage messageAt (Some uuid) true
                 (openSse openedAt uuid tr sv reg)).2)).1
        = Forwarded tr).
Proof.
  intros Hid. split.
  - intros Hidle. unfold postMessage. rewrite Hid. simpl.
    rewrite get_absent; [reflexivity|].
    rewrite cleanupStaleConnections_lookup. unfold openSse, register. simpl.
    rewrite lookup_insert_eq. unfold stale, timeout. simpl.
    apply Z.ltb_lt in Hidle. rewrite Hidle. reflexivity.
  - intros messageAt Hsoon.
    pose proof (postMessage_after_open openedAt messageAt uuid tr sv true reg Hid)
      as Hstored.
    set (mid := (postMessage messageAt (Some uuid) true
                   (openSse openedAt uuid tr sv reg)).2) in *.
    unfold postMessage. rewrite Hid. cbn [negb]. unfold get.
    rewrite cleanupStaleConnections_lookup, Hstored. unfold stale, timeout. simpl.
    replace (30 * 60 * 1000 <? sweptAt - messageAt) with false
      by (symmetry; apply Z.ltb_ge; lia).
    reflexivity.
Qed.

Lemma idle_session_expires_witness :
  (postMessage 2000000 (Some "s1") true
     (cleanupStaleConnections 1900000 (openSse 0 "s1" 4%nat 5%nat create))).1
  = SessionNotFound
  /\ (postMessage 2000000 (Some "s1") true
        (cleanupStaleConnections 1900000
           (postMessage 1000000 (Some "s1") true (openSse 0 "s1" 4%nat 5%nat create)).2)).1
     = Forwarded 4%nat.
Proof.
  destruct (idle_session_expires 0 1900000 2000000 "s1" 4%nat 5%nat create) as [Hidle Hkept].
  - reflexivity.
  - split; [apply Hidle; lia | apply Hkept; lia].
Defined.

End HttpFacts.

(** ** More on [geocodeCity] *)

Module GeocodeMore.
Import JS Geocode GeocodeFacts GeocodeSpec Samples MoreSamples.

Lemma asError_is_Error (error : Thrown) :
  exists nm msg, asError error = ErrorObject nm msg.
Proof. destruct error as [nm msg|s]; simpl; unfold new_Error; eauto. Qed.

Lemma relabel_is_Error (timeoutMs : Z) (error : Thrown) :
  exists nm msg, relabel timeoutMs error = ErrorObject nm msg.
Proof.
  unfold relabel. destruct (isAbortError error).
  - unfold new_Error. eauto.
  - apply asError_is_Error.
Qed.

(** Every way out of the loop, once an iteration runs. *)
Lemma loop_shape (env : Env) (city : string) (country : option string)
    (maxRetries timeoutMs : Z) (fuel attempt : nat) (le : option Thrown) :
  Z.of_nat attempt < maxRetries ->
  (Z.to_nat maxRetries - attempt < fuel)%nat ->
  exists k result,
    (attempt <= k)%nat /\ Z.of_nat k < maxRetries
    /\ attemptLoop env city country maxRetries timeoutMs fuel attempt le
       = Some (retried attempt (k - attempt) ++ [EvFetch k], result)
    /\ (forall error, result = Throw error -> exists nm msg, error = ErrorObject nm msg).
Proof.
  revert attempt le. induction fuel as [|fuel IH]; intros attempt le Hlt Hfuel; [lia|].
  simpl. assert (Hguard : (Z.of_nat attempt <? maxRetries) = true) by (apply Z.ltb_lt; lia).
  rewrite Hguard.
  destruct (attemptBody _ _ _) as [location|error].
  - exists attempt, (Normal location). rewrite Nat.sub_diag.
    repeat split; try lia. intros error [=].
  - destruct (isTerminal _).
    + exists attempt, (Throw (asError error)). rewrite Nat.sub_diag.
      repeat split; try lia. intros e [= <-]. apply asError_is_Error.
    + destruct (Z.ltb_spec (Z.of_nat attempt) (maxRetries - 1)) as [Hmore|Hlast].
      * destruct (IH (S attempt) (Some (relabel timeoutMs error)))
          as (k & result & Hle & Hk & Hrun & Herr); [lia | lia |].
        rewrite Hrun. exists k, result. repeat split; try lia; [|exact Herr].
        replace (k - attempt)%nat with (S (k - S attempt)) by lia. reflexivity.
      * exists attempt, (Throw (relabel timeoutMs error)). rewrite Nat.sub_diag.
        repeat split; try lia. intros e [= <-]. apply relabel_is_Error.
Qed.

Lemma geocodeCity_no_budget (env : Env) (city : string) (country : option string)
    (maxRetries timeoutMs : Z) :
  maxRetries <= 0 ->
  geocodeCity env city country maxRetries timeoutMs
  = Some ([], Throw (new_Error exhaustedMessage)).
Proof.
  intros Hnone. unfold geocodeCity. cbn [attemptLoop].
  replace (Z.of_nat 0 <? maxRetries) with false by (symmetry; apply Z.ltb_ge; lia).
  reflexivity.
Qed.

(** X13.  Whatever the network does, a call issues at most [maxRetries]
    requests, numbered from 0 without a gap, sleeps [2^a * 1000] ms after
    each request but the last one made, and never sleeps after its last
    request.  With a budget of 0 or less it issues none and throws the
    fallback error. *)
Theorem geocodeCity_run_shape
    (env : Env) (city : string) (country : option string) (maxRetries timeoutMs : Z) :
  exists trace result,
    geocodeCity env city country maxRetries timeoutMs = Some (trace, result)
    /\ ((maxRetries <= 0 /\ trace = [] /\ result = Throw (new_Error exhaustedMessage))
        \/ exists k, Z.of_nat k < maxRetries
                     /\ trace = retried 0 k ++ [EvFetch k]
                     /\ attemptsMade trace = S k
                     /\ waits trace = map (fun a => 2 ^ Z.of_nat a * 1000) (seq 0 k))
    /\ Z.of_nat (attemptsMade trace) <= Z.max 0 maxRetries.
Proof.
  destruct (Z.le_gt_cases maxRetries 0) as [Hnone|Hsome].
  - exists [], (Throw (new_Error exhaustedMessage)). split; [|split].
    + apply geocodeCity_no_budget, Hnone.
    + left. auto.
    + unfold attemptsMade. simpl. lia.
  - destruct (loop_shape env city country maxRetries timeoutMs
                (S (Z.to_nat maxRetries)) 0 None)
      as (k & result & _ & Hk & Hrun & _); [lia | lia |].
    rewrite Nat.sub_0_r in Hrun.
    assert (Hcount : attemptsMade (retried 0 k ++ [EvFetch k]) = S k).
    { rewrite attemptsMade_app, attemptsMade_retried. unfold attemptsMade. simpl. lia. }
    exists (retried 0 k ++ [EvFetch k]), result. split; [exact Hrun|]. split.
    + right. exists k. repeat split; try assumption.
      rewrite waits_app, waits_retried. simpl. apply app_nil_r.
    + rewrite Hcount. lia.
Qed.

(** X14.  Whatever [geocodeCity] throws is an [Error] object, also when
    [fetch] rejected with something that is not one. *)
Theorem geocodeCity_throws_only_errors
    (env : Env) (city : string) (country : option string) (maxRetries timeoutMs : Z)
    (trace : list Event) (error : Thrown) :
  geocodeCity env city country maxRetries timeoutMs = Some (trace, Throw error) ->
  exists nm msg, error = ErrorObject nm msg.
Proof.
  intros Hrun. destruct (Z.le_gt_cases maxRetries 0) as [Hnone|Hsome].
  - rewrite geocodeCity_no_budget in Hrun by exact Hnone.
    injection Hrun as _ <-. unfold new_Error. eauto.
  - destruct (loop_shape env city country maxRetries timeoutMs
                (S (Z.to_nat maxRetries)) 0 None)
      as (k & result & _ & _ & Hrun' & Herr); [lia | lia |].
    unfold geocodeCity in Hrun. rewrite Hrun' in Hrun. injection Hrun as _ ->.
    apply Herr. reflexivity.
Qed.

Lemma geocodeCity_throws_only_errors_witness :
  exists nm msg, new_Error "socket hang up" = ErrorObject nm msg.
Proof.
  apply (geocodeCity_throws_only_errors
           (network (fun _ => Rejected (NonError "socket hang up"))) "Manila" None 1 10000
           [EvFetch 0] (new_Error "socket hang up")).
  reflexivity.
Defined.

(** X15.  Transient failures are masked: when the attempts before [k]
    failed and were retried and attempt [k] receives a match with its
    four required fields, the call resolves with the fields of the first
    match, the country being [country_code] unless that is missing or
    empty.  Later matches in [results] play no part. *)
Theorem geocodeCity_recovers
    (env : Env) (city : string) (country : option string) (maxRetries timeoutMs : Z)
    (k : nat) (response : Response) (data : GeoData)
    (result : GeoResult) (others : list GeoResult)
    (lat lon : Q) (nm tz : string) :
  Z.of_nat k < maxRetries ->
  (forall j, (j < k)%nat ->
             retryableFailure city country (fetch env (geoUrl env city country) j) = true) ->
  fetch env (geoUrl env city country) k = Responded response ->
  ok response = true ->
  json response = Some (JsonObject data) ->
  results data = Some (result :: others) ->
  r_latitude result = Some lat -> ~ (lat == 0)%Q ->
  r_longitude result = Some lon -> ~ (lon == 0)%Q ->
  r_name result = Some nm -> nm <> EmptyString ->
  r_timezone result = Some tz -> tz <> EmptyString ->
  geocodeCity env city country maxRetries timeoutMs
  = Some (retried 0 k ++ [EvFetch k],
          Normal {| latitude := lat; longitude := lon; name := nm;
                    country := if truthy_ostring (r_country_code result)
                               then r_country_code result
                               else r_country result;
                    timezone := tz |}).
Proof.
  intros Hlt Hall Hfetch Hok Hjson Hres Hlat Hlat0 Hlon Hlon0 Hnm Hnm0 Htz Htz0.
  apply geocodeCity_success_at; try assumption.
  rewrite Hfetch. unfold attemptBody. rewrite Hok, Hjson. simpl.
  rewrite Hres, Hlat, Hlon, Hnm, Htz. simpl.
  assert (Hq : forall q, ~ (q == 0)%Q -> Qeq_bool q 0 = false).
  { intros q Hq. apply not_true_is_false. intros Heq. apply Hq, Qeq_bool_iff, Heq. }
  rewrite (Hq lat Hlat0), (Hq lon Hlon0).
  destruct nm; [congruence|]. destruct tz; [congruence|]. reflexivity.
Qed.

Lemma geocodeCity_recovers_witness :
  geocodeCity flaky "Manila" None 3 10000
  = Some ([EvFetch 0; EvWait 1000; EvFetch 1; EvWait 2000; EvFetch 2],
          Normal manilaLocation).
Proof.
  apply (geocodeCity_recovers flaky "Manila" None 3 10000 2 found
           {| results := Some [manila] |} manila [] (146 # 10)%Q (121 # 1)%Q
           "Manila" "Asia/Manila").
  - lia.
  - intros j Hj. destruct j as [|[|j]]; [reflexivity | reflexivity | lia].
  - reflexivity.
  - reflexivity.
  - reflexivity.
  - reflexivity.
  - reflexivity.
  - discriminate.
  - reflexivity.
  - discriminate.
  - reflexivity.
  - discriminate.
  - reflexivity.
  - discriminate.
Defined.

(** What the [try] block makes of a first match that lacks one of the
    four required fields, or carries it as 0 or as the empty string. *)
Lemma attemptBody_incomplete city country (response : Response) (data : GeoData)
    (result : GeoResult) (others : list GeoResult) :
  ok response = true ->
  json response = Some (JsonObject data) ->
  results data = Some (result :: others) ->
  truthy_onumber (r_latitude result) && truthy_onumber (r_longitude result)
  && truthy_ostring (r_name result) && truthy_ostring (r_timezone result) = false ->
  attemptBody city country (Responded response)
  = Throw (new_Error incompleteDataMessage).
Proof.
  intros Hok Hjson Hres Hfalsy. unfold attemptBody. rewrite Hok, Hjson. simpl.
  rewrite Hres.
  destruct (r_latitude result) as [lat|]; [|reflexivity].
  destruct (r_longitude result) as [lon|]; [|reflexivity].
  destruct (r_name result) as [nm|]; [|reflexivity].
  destruct (r_timezone result) as [tz|]; [|reflexivity].
  simpl in Hfalsy.
  destruct (negb (Qeq_bool lat 0)); [|reflexivity].
  destruct (negb (Qeq_bool lon 0)); [|reflexivity].
  destruct (truthy_string nm); [|reflexivity].
  destruct (truthy_string tz); [discriminate | reflexivity].
Qed.

(** X16.  A match is refused as incomplete data when its latitude,
    longitude, name or timezone is missing, and also when a coordinate
    is exactly 0 or a string is empty.  The refusal is not terminal: with
    budget left the call sleeps and asks again, and the incomplete-data
    error is thrown only from the last attempt. *)
Theorem geocodeCity_zero_coordinate_refused
    (env : Env) (city : string) (country : option string) (maxRetries timeoutMs : Z)
    (k : nat) (response : Response) (data : GeoData)
    (result : GeoResult) (others : list GeoResult) :
  Z.of_nat k < maxRetries ->
  (forall j, (j < k)%nat ->
             retryableFailure city country (fetch env (geoUrl env city country) j) = true) ->
  fetch env (geoUrl env city country) k = Responded response ->
  ok response = true ->
  json response = Some (JsonObject data) ->
  results data = Some (result :: others) ->
  truthy_onumber (r_latitude result) && truthy_onumber (r_longitude result)
  && truthy_ostring (r_name result) && truthy_ostring (r_timezone result) = false ->
  (Z.of_nat k < maxRetries - 1 ->
   exists rest outcome,
     geocodeCity env city country maxRetries timeoutMs
     = Some (retried 0 k
               ++ EvFetch k :: EvWait (2 ^ Z.of_nat k * 1000) :: EvFetch (S k) :: rest,
             outcome))
  /\ (Z.of_nat k = maxRetries - 1 ->
      geocodeCity env city country maxRetries timeoutMs
      = Some (retried 0 k ++ [EvFetch k], Throw (new_Error incompleteDataMessage))).
Proof.
  intros Hlt Hall Hfetch Hok Hjson Hres Hfalsy.
  apply geocodeCity_unmarked_error_retried; try assumption.
  - rewrite Hfetch. apply (attemptBody_incomplete _ _ _ data result others); assumption.
  - vm_compute. reflexivity.
Qed.

Lemma geocodeCity_zero_coordinate_refused_witness :
  geocodeCity (always foundOnEquator) "Equator" None 1 10000
  = Some ([EvFetch 0], Throw (new_Error incompleteDataMessage)).
Proof.
  apply (geocodeCity_zero_coordinate_refused
           (always foundOnEquator) "Equator" None 1 10000 0 foundOnEquator
           {| results := Some [onEquator] |} onEquator []).
  - lia.
  - intros j Hj. lia.
  - reflexivity.
  - reflexivity.
  - reflexivity.
  - reflexivity.
  - reflexivity.
  - reflexivity.
Defined.

(** X17.  A 5xx response is retried exactly when its status text holds
    neither marker.  If the status text contains "City not found" or
    "rate limit", the server error is thrown on the attempt that received
    it, with no sleep and no further request; otherwise the attempt counts
    as a retryable failure. *)
Theorem geocodeCity_server_error_classified
    (env : Env) (city : string) (country : option string) (maxRetries timeoutMs : Z)
    (k : nat) (response : Response) :
  Z.of_nat k < maxRetries ->
  (forall j, (j < k)%nat ->
             retryableFailure city country (fetch env (geoUrl env city country) j) = true) ->
  fetch env (geoUrl env city country) k = Responded response ->
  500 <= status response ->
  (includes (statusText response) "City not found"
   || includes (statusText response) "rate limit" = true ->
   geocodeCity env city country maxRetries timeoutMs
   = Some (retried 0 k ++ [EvFetch k], Throw (new_Error (serverErrorMessage response))))
  /\ (includes (statusText response) "City not found"
      || includes (statusText response) "rate limit" = false ->
      retryableFailure city country (fetch env (geoUrl env city country) k) = true).
Proof.
  intros Hlt Hall Hfetch Hst.
  assert (Hbody : attemptBody city country (Responded response)
                  = Throw (new_Error (serverErrorMessage response))).
  { unfold attemptBody, ok.
    replace (status response <=? 299) with false by (symmetry; apply Z.leb_gt; lia).
    rewrite andb_false_r. simpl.
    replace (500 <=? status response) with true by (symmetry; apply Z.leb_le; lia).
    reflexivity. }
  split.
  - intros Hmarked.
    apply (geocodeCity_terminal_at env city country maxRetries timeoutMs k
             (new_Error (serverErrorMessage response))); try assumption.
    + rewrite Hfetch. exact Hbody.
    + rewrite <- Hmarked. apply isTerminal_serverErrorMessage.
  - intros Hclean. rewrite Hfetch. unfold retryableFailure. rewrite Hbody.
    change (asError (new_Error (serverErrorMessage response)))
      with (new_Error (serverErrorMessage response)).
    rewrite isTerminal_serverErrorMessage, Hclean. reflexivity.
Qed.

Lemma geocodeCity_server_error_classified_witness :
  geocodeCity (always busy503) "Manila" None 3 10000
  = Some ([EvFetch 0], Throw (new_Error (serverErrorMessage busy503)))
  /\ retryableFailure "Manila" None
       (fetch (always unavailable503) (geoUrl (always unavailable503) "Manila" None) 0%nat)
     = true.
Proof.
  split.
  - apply (geocodeCity_server_error_classified
             (always busy503) "Manila" None 3 10000 0 busy503).
    + lia.
    + intros j Hj. lia.
    + reflexivity.
    + simpl. lia.
    + vm_compute. reflexivity.
  - apply (geocodeCity_server_error_classified
             (always unavailable503) "Manila" None 3 10000 0 unavailable503).
    + lia.
    + intros j Hj. lia.
    + reflexivity.
    + simpl. lia.
    + vm_compute. reflexivity.
Defined.

(** X18.  When every attempt is aborted by the timeout, the call makes
    all its [maxRetries] attempts and throws the timeout message naming
    [timeoutMs]; the [AbortError] itself is not what the caller sees. *)
Theorem geocodeCity_timeouts_relabelled
    (env : Env) (city : string) (country : option string) (maxRetries timeoutMs : Z)
    (abortMessage : nat -> string) :
  1 <= maxRetries ->
  (forall j, Z.of_nat j < maxRetries ->
             fetch env (geoUrl env city country) j
             = Rejected (ErrorObject "AbortError" (abortMessage j))
             /\ isTerminal (ErrorObject "AbortError" (abortMessage j)) = false) ->
  exists trace,
    geocodeCity env city country maxRetries timeoutMs
    = Some (trace, Throw (new_Error (timeoutMessage timeoutMs)))
    /\ Z.of_nat (attemptsMade trace) = maxRetries.
Proof.
  intros Hbudget Hall.
  set (last := (Z.to_nat maxRetries - 1)%nat).
  exists (retried 0 last ++ [EvFetch last]). split.
  - destruct (Hall last) as [Hfetch Hclean]; [lia|].
    destruct (timeout_retryable city country timeoutMs _ Hclean) as [_ Herr].
    rewrite <- Herr, <- Hfetch.
    apply geocodeCity_exhausted_at; [lia | |].
    + intros j Hj. destruct (Hall j) as [Hfj Hcj]; [lia|]. rewrite Hfj.
      apply (timeout_retryable city country timeoutMs _ Hcj).
    + rewrite Hfetch. apply (timeout_retryable city country timeoutMs _ Hclean).
  - rewrite attemptsMade_app, attemptsMade_retried. unfold attemptsMade. simpl. lia.
Qed.

Lemma geocodeCity_timeouts_relabelled_witness :
  exists trace,
    geocodeCity (network (fun _ => aborted)) "Manila" None 3 10000
    = Some (trace, Throw (new_Error (timeoutMessage 10000)))
    /\ Z.of_nat (attemptsMade trace) = 3.
Proof.
  apply (geocodeCity_timeouts_relabelled
           (network (fun _ => aborted)) "Manila" None 3 10000
           (fun _ => "This operation was aborted")).
  - lia.
  - intros j Hj. split; reflexivity.
Defined.

End GeocodeMore.

(** ** More on growing degree days *)

Module GrowingMore.
Import Growing GrowingFacts.

Local Open Scope Q_scope.

(** X20.  Only the first 24 hourly readings count: whatever follows them
    in the series has no effect on the value. *)
Theorem growingDegreeDays_ignores_later_readings
    (firstDay later : list Q) (baseTemp : Q) :
  (24 <= length firstDay)%nat ->
  growingDegreeDays (firstDay ++ later) baseTemp = growingDegreeDays firstDay baseTemp.
Proof.
  intros Hlen. unfold growingDegreeDays.
  rewrite take_app_le by exact Hlen. reflexivity.
Qed.

Lemma growingDegreeDays_ignores_later_readings_witness :
  growingDegreeDays (Samples.coolDay ++ Samples.warmDay) 10
  = growingDegreeDays Samples.coolDay 10.
Proof.
  apply (growingDegreeDays_ignores_later_readings Samples.coolDay Samples.warmDay 10).
  simpl. lia.
Defined.



End GrowingMore.

(** ** The growth description in double precision *)

Module GrowingDoubleMore.
Import GrowingDouble GrowingDoubleFacts.

Local Open Scope float_scope.

Lemma description_of_max (d : number) :
  description (Math_max 0 d)
  = if 0 <? d then "Conditions favorable for plant growth"%string
    else "Temperature below growing threshold"%string.
Proof.
  unfold description. change PrimFloat.zero with 0.
  destruct (zero_trichotomy d) as [Hpos | [Hle | Hnan]].
  - rewrite (Math_max_0_positive d Hpos), Hpos. reflexivity.
  - rewrite (Math_max_0_nonpositive d Hle).
    destruct (nonpositive_facts d Hle) as (_ & ->). reflexivity.
  - rewrite (Math_max_0_nan d Hnan).
    destruct (nan_facts d Hnan) as (-> & _). reflexivity.
Qed.

(** X19.  The growth description follows the sign of the computed
    difference [d] (the average of the first 24 readings minus the base,
    in double precision): "favorable" exactly when [d] is above zero,
    "below growing threshold" in every other case, [NaN] included. *)
Theorem description_follows_difference
    (temperature_2m : list number) (baseTemp : number) :
  let hourlyTemps := take 24 temperature_2m in
  let d :=
    foldl PrimFloat.add 0 hourlyTemps
    / of_uint63 (Uint63.of_Z (Z.of_nat (length hourlyTemps)))
    - baseTemp in
  (description (growingDegreeDays temperature_2m baseTemp)
   = "Conditions favorable for plant growth"%string
   <-> (0 <? d) = true)
  /\ (description (growingDegreeDays temperature_2m baseTemp)
      = "Temperature below growing threshold"%string
      <-> (0 <? d) = false).
Proof.
  intros hourlyTemps d.
  change (growingDegreeDays temperature_2m baseTemp) with (Math_max 0 d).
  rewrite description_of_max.
  destruct (0 <? d); split; split; (reflexivity || discriminate).
Qed.

Lemma description_follows_difference_witness :
  description (growingDegreeDays warmDay 10)
  = "Conditions favorable for plant growth"%string
  /\ description (growingDegreeDays warmDay 25)
     = "Temperature below growing threshold"%string
  /\ description (growingDegreeDays steadyDay tenPointThree)
     = "Conditions favorable for plant growth"%string.
Proof.
  pose proof (description_follows_difference warmDay 10) as Hwarm.
  pose proof (description_follows_difference warmDay 25) as Hhigh.
  pose proof (description_follows_difference steadyDay tenPointThree) as Hsteady.
  cbv zeta in Hwarm, Hhigh, Hsteady.
  destruct Hwarm as ((_ & Hwarm) & _).
  destruct Hhigh as (_ & (_ & Hhigh)).
  destruct Hsteady as ((_ & Hsteady) & _).
  split; [|split].
  - apply Hwarm. reflexivity.
  - apply Hhigh. reflexivity.
  - apply Hsteady. reflexivity.
Defined.

End GrowingDoubleMore.

(** ** Weather alerts *)

Module AlertsFacts.
Import JS Growing Alerts.

Ltac split_alert_tests :=
  unfold alerts;
  repeat match goal with
  | |- context [if ?b then _ else _] =>
    lazymatch b with
    | Nat.ltb _ _ => fail
    | _ => destruct b eqn:?
    end
  end.

(** X23.  Whatever the readings, the list of alerts is never empty and
    holds at most four entries, and it never carries both the heat and
    the cold warning. *)
Theorem alerts_bounds (temp windSpeed precipitation : number) (weatherText : string) :
  (1 <= length (alerts temp windSpeed precipitation weatherText) <= 4)%nat
  /\ ~ (In heatWarning (alerts temp windSpeed precipitation weatherText)
        /\ In coldWarning (alerts temp windSpeed precipitation weatherText)).
Proof.
  split_alert_tests; (split; [simpl; lia|]); simpl;
    intros [Hheat Hcold]; intuition discriminate.
Qed.

Lemma gt_Finite (q c : Q) : gt (Finite q) c = true <-> (c < q)%Q.
Proof.
  simpl. rewrite negb_true_iff. split.
  - intros Hb. apply Qnot_le_lt. intros Hle. apply Qle_bool_iff in Hle. congruence.
  - intros Hlt. apply not_true_is_false. intros Hle. apply Qle_bool_iff in Hle.
    exact (Qlt_not_le _ _ Hlt Hle).
Qed.

Lemma lt_Finite (q c : Q) : lt (Finite q) c = true <-> (q < c)%Q.
Proof.
  simpl. rewrite negb_true_iff. split.
  - intros Hb. apply Qnot_le_lt. intros Hle. apply Qle_bool_iff in Hle. congruence.
  - intros Hlt. apply not_true_is_false. intros Hle. apply Qle_bool_iff in Hle.
    exact (Qlt_not_le _ _ Hlt Hle).
Qed.

Lemma gt_Finite_false (q c : Q) : gt (Finite q) c = false <-> (q <= c)%Q.
Proof.
  rewrite <- not_true_iff_false, gt_Finite. split.
  - apply Qnot_lt_le.
  - intros Hle Hlt. exact (Qlt_not_le _ _ Hlt Hle).
Qed.

Lemma lt_Finite_false (q c : Q) : lt (Finite q) c = false <-> (c <= q)%Q.
Proof.
  rewrite <- not_true_iff_false, lt_Finite. split.
  - apply Qnot_lt_le.
  - intros Hle Hlt. exact (Qlt_not_le _ _ Hlt Hle).
Qed.

(** X24.  For readings that parsed, the all-clear line is the whole
    answer exactly when the temperature lies within -10 and 35 degrees,
    the wind is at most 50 km/h, the precipitation at most 20 mm, and the
    weather text does not mention a thunderstorm.  Readings that did not
    parse (NaN) raise no warning. *)
Theorem all_clear_iff (temp windSpeed precipitation : Q) (weatherText : string) :
  (alerts (Finite temp) (Finite windSpeed) (Finite precipitation) weatherText = [noAlerts]
   <-> ((-10 # 1) <= temp /\ temp <= (35 # 1))%Q
       /\ (windSpeed <= (50 # 1))%Q
       /\ (precipitation <= (20 # 1))%Q
       /\ includes (toLowerCase weatherText) "thunderstorm" = false)
  /\ (includes (toLowerCase weatherText) "thunderstorm" = false ->
      alerts NaN NaN NaN weatherText = [noAlerts]).
Proof.
  split.
  - rewrite <- lt_Finite_false, <- !gt_Finite_false. split.
    + split_alert_tests; simpl; intros Hlist; try discriminate Hlist; auto.
    + intros ((Hcold & Hheat) & Hwind & Hrain & Hstorm).
      unfold alerts. rewrite Hheat, Hcold, Hwind, Hrain, Hstorm. reflexivity.
  - intros Hstorm. unfold alerts. simpl. rewrite Hstorm. reflexivity.
Qed.

Lemma all_clear_iff_witness :
  alerts (Finite (22 # 1)) (Finite (12 # 1)) (Finite (0 # 1)) "Partly cloudy" = [noAlerts]
  /\ alerts NaN NaN NaN "Unknown" = [noAlerts].
Proof.
  destruct (all_clear_iff (22 # 1) (12 # 1) (0 # 1) "Partly cloudy") as [Hclear _].
  destruct (all_clear_iff 0 0 0 "Unknown") as [_ Hnan].
  split.
  - apply Hclear. repeat split; vm_compute; (reflexivity || discriminate).
  - apply Hnan. vm_compute. reflexivity.
Defined.

Lemma storm_text_iff (weather_code : Z) :
  includes (toLowerCase (weather weather_code)) "thunderstorm" = true
  <-> weather_code = 95 \/ weather_code = 96 \/ weather_code = 99.
Proof.
  unfold weather, WEATHER_CODES. cbn [lookupCode].
  repeat match goal with
  | |- context [weather_code =? ?k] =>
    destruct (Z.eqb_spec weather_code k) as [->|?];
    [ vm_compute; split; [intros H; try discriminate H; auto | intros H; first [reflexivity | lia]] | ]
  end.
  vm_compute. split; [intros H; discriminate H | lia].
Qed.

Lemma storm_warned_iff (temp windSpeed precipitation : number) (weatherText : string) :
  In stormWarning (alerts temp windSpeed precipitation weatherText)
  <-> includes (toLowerCase weatherText) "thunderstorm" = true.
Proof.
  split.
  - split_alert_tests; simpl; intros Hin; try reflexivity; intuition discriminate.
  - intros Hstorm. unfold alerts. rewrite Hstorm.
    repeat match goal with
    | |- context [if ?b then _ else _] =>
      lazymatch b with
      | Nat.ltb _ _ => fail
      | _ => destruct b
      end
    end; simpl; auto 10.
Qed.

(** X25.  Through the weather-code table, the thunderstorm warning is
    raised exactly for the codes 95, 96 and 99, whatever the other
    readings are; a code the table does not hold reads "Unknown" and
    raises none. *)
Theorem thunderstorm_warning_iff_code
    (temp windSpeed precipitation : number) (weather_code : Z) :
  In stormWarning (alerts temp windSpeed precipitation (weather weather_code))
  <-> weather_code = 95 \/ weather_code = 96 \/ weather_code = 99.
Proof. rewrite storm_warned_iff. apply storm_text_iff. Qed.

End AlertsFacts.

(** ** Historical weather *)

Module HistoricalFacts.
Import JS Historical.

Lemma afterRequests_nil (run : option Run) : afterRequests [] run = run.
Proof. destruct run as [[requested result]|]; reflexivity. Qed.

Lemma afterRequests_cons (y : Z) (years : list Z) (run : option Run) :
  afterRequests (y :: years) run = afterRequests [y] (afterRequests years run).
Proof. destruct run as [[requested result]|]; reflexivity. Qed.

Lemma yearLoop_step_delivers archive currentYear yearsBack fuel i acc :
  Z.of_nat i < yearsBack ->
  delivers archive (yearOf currentYear i) ->
  exists entry,
    year entry = yearOf currentYear i
    /\ yearLoop archive currentYear yearsBack (S fuel) i acc
       = afterRequests [yearOf currentYear i]
           (yearLoop archive currentYear yearsBack fuel (S i) (acc ++ [entry])).
Proof.
  intros Hlt (response & d & Hfetch & Hok & Hdaily).
  exists (summarise (yearOf currentYear i) d). split; [reflexivity|].
  cbn [yearLoop]. apply Z.ltb_lt in Hlt. rewrite Hlt.
  fold (yearOf currentYear i). rewrite Hfetch, Hok, Hdaily. simpl.
  destruct (yearLoop _ _ _ _ _ _) as [[requested result]|]; reflexivity.
Qed.

Lemma yearLoop_step_fails archive currentYear yearsBack fuel i acc error :
  Z.of_nat i < yearsBack ->
  failureOf archive (yearOf currentYear i) = Some error ->
  yearLoop archive currentYear yearsBack (S fuel) i acc
  = Some ([yearOf currentYear i], Throw error).
Proof.
  intros Hlt Hfail. cbn [yearLoop]. apply Z.ltb_lt in Hlt. rewrite Hlt.
  fold (yearOf currentYear i). unfold failureOf in Hfail.
  destruct (fetchYear archive (yearOf currentYear i)) as [response|e].
  - destruct (negb (ok response)); [injection Hfail as <-; reflexivity|].
    destruct (daily response); [discriminate | injection Hfail as <-; reflexivity].
  - injection Hfail as <-. reflexivity.
Qed.

(** [k] years in a row that deliver. *)
Lemma yearLoop_delivered archive currentYear yearsBack (k fuel i : nat) acc :
  Z.of_nat (i + k) <= yearsBack ->
  (forall j, (i <= j < i + k)%nat -> delivers archive (yearOf currentYear j)) ->
  exists entries,
    map year entries = map (yearOf currentYear) (seq i k)
    /\ yearLoop archive currentYear yearsBack (k + fuel) i acc
       = afterRequests (map (yearOf currentYear) (seq i k))
           (yearLoop archive currentYear yearsBack fuel (i + k) (acc ++ entries)).
Proof.
  revert i acc. induction k as [|k IH]; intros i acc Hle Hall.
  - exists []. split; [reflexivity|]. simpl.
    rewrite afterRequests_nil, Nat.add_0_r, app_nil_r. reflexivity.
  - destruct (yearLoop_step_delivers archive currentYear yearsBack (k + fuel) i acc)
      as (entry & Hyear & Hstep); [lia | apply Hall; lia |].
    destruct (IH (S i) (acc ++ [entry])) as (entries & Hyears & Hrest);
      [lia | intros j Hj; apply Hall; lia |].
    exists (entry :: entries). split.
    + simpl. rewrite Hyear, Hyears. reflexivity.
    + change (S k + fuel)%nat with (S (k + fuel)). rewrite Hstep, Hrest.
      rewrite <- afterRequests_cons.
      replace (S i + k)%nat with (i + S k)%nat by lia.
      rewrite <- app_assoc. reflexivity.
Qed.

(** X26.  When the archive delivers every year asked for, the call asks
    for exactly [yearsBack] years, last year first and going back one
    year at a time, and returns one entry per year in that order; the
    current year is never among them. *)
Theorem historical_data_covers_past_years
    (archive : Archive) (currentYear yearsBack : Z) :
  0 <= yearsBack ->
  (forall j, Z.of_nat j < yearsBack -> delivers archive (yearOf currentYear j)) ->
  exists entries,
    historical_data archive currentYear yearsBack
    = Some (map (fun i => currentYear - 1 - Z.of_nat i) (seq 0 (Z.to_nat yearsBack)),
            Normal entries)
    /\ map year entries
       = map (fun i => currentYear - 1 - Z.of_nat i) (seq 0 (Z.to_nat yearsBack))
    /\ Z.of_nat (length entries) = yearsBack
    /\ (forall entry, In entry entries ->
          currentYear - yearsBack <= year entry < currentYear).
Proof.
  intros Hnonneg Hall. unfold historical_data.
  destruct (yearLoop_delivered archive currentYear yearsBack (Z.to_nat yearsBack) 1 0 [])
    as (entries & Hyears & Hrun); [lia | intros j Hj; apply Hall; lia |].
  exists entries.
  replace (S (Z.to_nat yearsBack)) with (Z.to_nat yearsBack + 1)%nat by lia.
  rewrite Hrun. cbn [yearLoop].
  replace (Z.of_nat (0 + Z.to_nat yearsBack) <? yearsBack) with false
    by (symmetry; apply Z.ltb_ge; lia).
  simpl. rewrite app_nil_r. split; [reflexivity|]. split; [exact Hyears|]. split.
  - rewrite <- (length_map year), Hyears, length_map, length_seq. lia.
  - intros entry Hin. apply (in_map year) in Hin. rewrite Hyears in Hin.
    apply in_map_iff in Hin. destruct Hin as (i & <- & Hi). apply in_seq in Hi.
    unfold yearOf. lia.
Qed.

(** X27.  The call fails fast and whole: when the years before the
    [k]-th deliver and the request for the [k]-th does not, the call
    throws that failure, returns none of the entries already computed,
    and asks for no further year. *)
Theorem historical_data_fails_fast
    (archive : Archive) (currentYear yearsBack : Z) (k : nat) (error : Thrown) :
  Z.of_nat k < yearsBack ->
  (forall j, (j < k)%nat -> delivers archive (yearOf currentYear j)) ->
  failureOf archive (yearOf currentYear k) = Some error ->
  historical_data archive currentYear yearsBack
  = Some (map (fun i => currentYear - 1 - Z.of_nat i) (seq 0 (S k)), Throw error).
Proof.
  intros Hlt Hall Hfail. unfold historical_data.
  destruct (yearLoop_delivered archive currentYear yearsBack k
              (S (Z.to_nat yearsBack - k)) 0 [])
    as (entries & _ & Hrun); [lia | intros j Hj; apply Hall; lia |].
  replace (S (Z.to_nat yearsBack)) with (k + S (Z.to_nat yearsBack - k))%nat by lia.
  rewrite Hrun, (yearLoop_step_fails _ _ _ _ _ _ error) by (assumption || (simpl; lia)).
  unfold afterRequests. rewrite seq_S, map_app. reflexivity.
Qed.

Lemma historical_data_covers_past_years_witness :
  exists entries,
    historical_data MoreSamples.fullArchive 2025 3
    = Some ([2024; 2023; 2022], Normal entries)
    /\ map year entries = [2024; 2023; 2022]
    /\ Z.of_nat (length entries) = 3
    /\ (forall entry, In entry entries -> 2025 - 3 <= year entry < 2025).
Proof.
  apply (historical_data_covers_past_years MoreSamples.fullArchive 2025 3).
  - lia.
  - intros j Hj. eexists. eexists. repeat split; reflexivity.
Defined.

Lemma historical_data_fails_fast_witness :
  historical_data MoreSamples.archiveWithout2023 2025 3
  = Some ([2024; 2023],
          Throw (new_Error "Historical Weather API error: Bad Gateway")).
Proof.
  apply (historical_data_fails_fast MoreSamples.archiveWithout2023 2025 3 1).
  - lia.
  - intros j Hj. assert (j = 0%nat) as -> by lia.
    eexists. eexists. repeat split; reflexivity.
  - reflexivity.
Defined.

End HistoricalFacts.

(** ** The two versions of [geocodeCity] *)

Module GeocodeSimpleFacts.
Import JS IncludesFacts.

(** X28.  The version without retries agrees with the retrying one where
    that one succeeds: on any outcome from which an attempt of the
    retrying version yields a location, it yields the same location.
    Where the body is a JSON object with no match, both throw an error
    whose message holds "City not found".  Where the body is [null],
    neither does: both throw the [TypeError] of reading [results] off
    [null], whose message holds no "City not found". *)
Theorem versions_agree_on_success
    (city : string) (country : option string) (outcome : Geocode.FetchOutcome)
    (parseError : Thrown) :
  (forall location,
     Geocode.attemptBody city country outcome = Normal location ->
     GeocodeSimple.geocodeCity city outcome parseError
     = Normal (GeocodeSimple.ofChecked location))
  /\ (forall response data,
        outcome = Geocode.Responded response ->
        Geocode.ok response = true ->
        Geocode.json response = Some (Geocode.JsonObject data) ->
        Geocode.results data = None \/ Geocode.results data = Some [] ->
        exists msg msg',
          GeocodeSimple.geocodeCity city outcome parseError = Throw (new_Error msg)
          /\ Geocode.attemptBody city country outcome = Throw (new_Error msg')
          /\ includes msg "City not found" = true
          /\ includes msg' "City not found" = true)
  /\ (forall response,
        outcome = Geocode.Responded response ->
        Geocode.ok response = true ->
        Geocode.json response = Some Geocode.JsonNull ->
        let typeError :=
          ErrorObject "TypeError" "Cannot read properties of null (reading 'results')" in
        GeocodeSimple.geocodeCity city outcome parseError = Throw typeError
        /\ Geocode.attemptBody city country outcome = Throw typeError
        /\ includes (messageOf typeError) "City not found" = false).
Proof.
  split; [|split].
  - intros location Hbody. destruct outcome as [response|error]; [|discriminate].
    unfold Geocode.attemptBody in Hbody. unfold GeocodeSimple.geocodeCity.
    destruct (negb (Geocode.ok response)).
    { destruct (500 <=? Geocode.status response); [discriminate|].
      destruct (Geocode.status response =? 429); discriminate. }
    destruct (Geocode.json response) as [[|data]|]; [discriminate| |discriminate].
    destruct (Geocode.results data) as [[|result others]|]; try discriminate.
    destruct (Geocode.r_latitude result) as [lat|]; [|discriminate].
    destruct (Geocode.r_longitude result) as [lon|]; [|discriminate].
    destruct (Geocode.r_name result) as [nm|]; [|discriminate].
    destruct (Geocode.r_timezone result) as [tz|]; [|discriminate].
    destruct (_ || _); [discriminate|].
    injection Hbody as <-. reflexivity.
  - intros response data -> Hok Hjson Hres.
    exists ("City not found: " +:+ city), (Geocode.cityNotFoundMessage city country).
    unfold GeocodeSimple.geocodeCity, Geocode.attemptBody. rewrite Hok, Hjson. simpl.
    split; [|split; [|split]].
    + destruct Hres as [-> | ->]; reflexivity.
    + destruct Hres as [-> | ->]; reflexivity.
    + reflexivity.
    + reflexivity.
  - intros response -> Hok Hjson typeError.
    unfold GeocodeSimple.geocodeCity, Geocode.attemptBody. rewrite Hok, Hjson. simpl.
    split; [|split]; reflexivity.
Qed.

Lemma versions_agree_on_success_witness :
  GeocodeSimple.geocodeCity "Manila" (Geocode.Responded Samples.found)
                            MoreSamples.syntaxError
  = Normal (GeocodeSimple.ofChecked Samples.manilaLocation)
  /\ GeocodeSimple.geocodeCity "Manila" (Geocode.Responded Samples.nullBody)
                               MoreSamples.syntaxError
     = Throw (ErrorObject "TypeError"
                          "Cannot read properties of null (reading 'results')").
Proof.
  split.
  - apply (versions_agree_on_success "Manila" None (Geocode.Responded Samples.found)
             MoreSamples.syntaxError).
    reflexivity.
  - destruct (versions_agree_on_success "Manila" None
                (Geocode.Responded Samples.nullBody) MoreSamples.syntaxError)
      as (_ & _ & Hnull).
    apply (Hnull Samples.nullBody); reflexivity.
Defined.

(** X29.  The version without retries hands on the first match as it
    comes: a match lacking a required field, or carrying a coordinate 0
    or an empty name or timezone, is returned with that field as it is,
    where the retrying version refuses it as incomplete data. *)
Theorem simple_version_returns_unchecked
    (city : string) (country : option string) (parseError : Thrown)
    (response : Geocode.Response) (data : Geocode.GeoData)
    (result : Geocode.GeoResult) (others : list Geocode.GeoResult) :
  Geocode.ok response = true ->
  Geocode.json response = Some (Geocode.JsonObject data) ->
  Geocode.results data = Some (result :: others) ->
  GeocodeSimple.geocodeCity city (Geocode.Responded response) parseError
  = Normal {| GeocodeSimple.latitude := Geocode.r_latitude result;
              GeocodeSimple.longitude := Geocode.r_longitude result;
              GeocodeSimple.name := Geocode.r_name result;
              GeocodeSimple.country :=
                if truthy_ostring (Geocode.r_country_code result)
                then Geocode.r_country_code result
                else Geocode.r_country result;
              GeocodeSimple.timezone := Geocode.r_timezone result |}
  /\ (truthy_onumber (Geocode.r_latitude result)
      && truthy_onumber (Geocode.r_longitude result)
      && truthy_ostring (Geocode.r_name result)
      && truthy_ostring (Geocode.r_timezone result) = false ->
      Geocode.attemptBody city country (Geocode.Responded response)
      = Throw (new_Error Geocode.incompleteDataMessage)).
Proof.
  intros Hok Hjson Hres. split.
  - unfold GeocodeSimple.geocodeCity. rewrite Hok, Hjson. simpl. rewrite Hres. reflexivity.
  - intros Hfalsy.
    apply (GeocodeMore.attemptBody_incomplete _ _ _ data result others); assumption.
Qed.

Lemma simple_version_returns_unchecked_witness :
  GeocodeSimple.geocodeCity "Atlantis" (Geocode.Responded MoreSamples.foundNameOnly)
                            MoreSamples.syntaxError
  = Normal {| GeocodeSimple.latitude := None;
              GeocodeSimple.longitude := None;
              GeocodeSimple.name := Some "Atlantis";
              GeocodeSimple.country := Some "Nowhere";
              GeocodeSimple.timezone := Some "UTC" |}
  /\ Geocode.attemptBody "Atlantis" None (Geocode.Responded MoreSamples.foundNameOnly)
     = Throw (new_Error Geocode.incompleteDataMessage).
Proof.
  destruct (simple_version_returns_unchecked
              "Atlantis" None MoreSamples.syntaxError MoreSamples.foundNameOnly
              {| Geocode.results := Some [MoreSamples.nameOnly] |}
              MoreSamples.nameOnly [])
    as [Hloose Hstrict]; try reflexivity.
  split; [exact Hloose | apply Hstrict; reflexivity].
Defined.

End GeocodeSimpleFacts.

(** ** The shape of what the tool handler returns *)

Module ToolsMore.
Import JS Tools ToolsFacts.

Lemma textResult_shape {RawArgs Data : Type} (env : Callees RawArgs Data)
    (data : Data) (result : CallToolResult) :
  textResult env data = Normal result ->
  exists s, JSON_stringify env data = Normal s
            /\ result = {| content := [ {| type := "text"; text := s |} ];
                           isError := None |}.
Proof.
  unfold textResult. destruct (JSON_stringify env data) as [s|e]; simpl; [|discriminate].
  intros [= <-]. eauto.
Qed.

Lemma dispatch_normal_shape {RawArgs Data : Type} (env : Callees RawArgs Data)
    (request : Request RawArgs) (result : CallToolResult) :
  dispatch env request = Normal result ->
  In (params_name request) toolNames
  /\ exists s, result = {| content := [ {| type := "text"; text := s |} ];
                           isError := None |}.
Proof.
  unfold dispatch, toolNames.
  repeat match goal with
  | |- context [String.eqb (params_name request) ?tool] =>
    destruct (String.eqb_spec (params_name request) tool) as [->|_]
  end;
  try discriminate;
  (intros Hrun; split; [simpl; auto 10|]);
  repeat match type of Hrun with
  | context [bind ?c _] =>
    let x := fresh "x" in destruct c as [x|]; simpl in Hrun; [|discriminate Hrun]
  end;
  destruct (textResult_shape _ _ _ Hrun) as (s & _ & ->); eauto.
Qed.

(** X30.  What the handler returns always carries exactly one content
    item, of type "text".  The [isError] flag is set exactly when the
    body of the [try] block threw, and is absent exactly when it ran to
    its end, which happens only for one of the five tool names; the text
    is then what [JSON.stringify] produced. *)
Theorem callTool_result_shape
    {RawArgs Data : Type} (env : Callees RawArgs Data) (request : Request RawArgs)
    (result : CallToolResult) :
  callTool env request = Normal result ->
  (exists s, content result = [ {| type := "text"; text := s |} ])
  /\ (isError result = Some true <-> exists error, dispatch env request = Throw error)
  /\ (isError result = None <-> dispatch env request = Normal result)
  /\ (isError result = None -> In (params_name request) toolNames).
Proof.
  unfold callTool. destruct (dispatch env request) as [r|error] eqn:Hbody; simpl.
  - intros [= <-]. destruct (dispatch_normal_shape env request r Hbody) as (Hname & s & ->).
    simpl. split; [eauto|]. split; [|split].
    + split; [discriminate | intros [e He]; discriminate].
    + split; reflexivity.
    + intros _. exact Hname.
  - intros [= <-]. simpl. split; [eauto|]. split; [|split].
    + split; eauto.
    + split; discriminate.
    + discriminate.
Qed.

Lemma callTool_result_shape_witness :
  (exists s, content (errorResult Samples.schemaError) = [ {| type := "text"; text := s |} ])
  /\ (isError (errorResult Samples.schemaError) = Some true
      <-> exists error,
            dispatch Samples.failing (Samples.request "get_weather_alerts") = Throw error).
Proof.
  destruct (callTool_result_shape Samples.failing (Samples.request "get_weather_alerts")
              (errorResult Samples.schemaError))
    as (Hcontent & Hflag & _); [reflexivity|].
  split; assumption.
Defined.

End ToolsMore.
